(** * The students REST resource of [server.js]

    A shallow embedding of the five CRUD handlers that [server.js]
    registers on the Express application, and theorems about the response
    each one sends and what it does to the datastore.

    [server.js] is present in two variants.  The handlers of the first are
    in [Module First], those of the second in [Module Second]; everything
    the two share (JSON values, the response object, the datastore, the
    array methods) comes before them. *)

From stdpp Require Import gmap strings list fin_maps pretty.
From Stdlib Require Import ZArith Lia.

Local Set Warnings "-register-all".
Local Open Scope string_scope.
Local Open Scope list_scope.

(** ** JSON values *)

(** What [express.json()] and the datastore hand to the handlers: the
    values of JSON.  JavaScript's [undefined] is not one of them; a value
    that may be [undefined] is an [option value], [None] being
    [undefined].  [Num n] is the number that the integer numeral [n]
    denotes: a double, so [n] itself up to [2^53] and the double nearest
    to [n] beyond.  Numbers with a fractional part are not among the
    values. *)
Inductive value :=
| Null
| Bool (b : bool)
| Num (n : Z)
| Str (s : string)
| Arr (items : list value)
| Obj (fields : gmap string value).

(** A student is an open record: an object with whatever keys were stored. *)
Abbreviation student := (gmap string value).

(** ** Exceptions *)

Inductive js_error :=
| TypeError (message : string)
| ReferenceError (message : string)
| Error (message : string).

Definition error_message (e : js_error) : string :=
  match e with
  | TypeError m | ReferenceError m | Error m => m
  end.

(** A computation that returns or throws, without touching any state. *)
Abbreviation result A := (js_error + A)%type.

(** ** The language's own operations *)

(** [!v]'s operand read as a boolean: [undefined], [null], [false], [0]
    and the empty string are falsy, every array and object is truthy. *)
Definition truthy (v : option value) : bool :=
  match v with
  | None | Some Null => false
  | Some (Bool b) => b
  | Some (Num n) => negb (Z.eqb n 0)
  | Some (Str s) => negb (String.eqb s "")
  | Some (Arr _) | Some (Obj _) => true
  end.

(** *** Numbers as strings *)

(** The double nearest to the integer [n >= 0], ties going to the even
    mantissa: below [2^53] every integer is a double; above, a double has
    53 significant bits. *)
Definition nearest_double (n : Z) : Z :=
  let b := Z.log2 n in
  if (b <? 53)%Z then n
  else
    let q := (b - 52)%Z in
    let m := (n / 2 ^ q)%Z in
    let r := (n mod 2 ^ q)%Z in
    let half := (2 ^ (q - 1))%Z in
    let m' := if (r <? half)%Z then m
              else if (half <? r)%Z then (m + 1)%Z
              else if Z.even m then m else (m + 1)%Z in
    (m' * 2 ^ q)%Z.

(** The number of decimal digits of [v > 0]. *)
Definition decimal_length (v : Z) : Z := Z.of_nat (String.length (pretty v)).

(** The [k]-digit numerals [s] that, followed by [n - k] zeros, denote a
    number that is read back as the double [v]; each with its distance
    from [v]. *)
Definition numerals (v k : Z) : list (Z * Z * Z) :=
  n ← [decimal_length v; (decimal_length v + 1)%Z];
  s ← [(v / 10 ^ (n - k))%Z; (v / 10 ^ (n - k) + 1)%Z];
  if ((k <=? n) && (10 ^ (k - 1) <=? s) && (s <? 10 ^ k)
      && (nearest_double (s * 10 ^ (n - k)) =? v))%Z
  then [(Z.abs (s * 10 ^ (n - k) - v), s, n)]
  else [].

(** Of those, the one closest to [v], the even [s] on a tie. *)
Definition closest (c : list (Z * Z * Z)) : option (Z * Z) :=
  foldl (λ best x,
           let '(dist, s, n) := x in
           match best with
           | None => Some (dist, s, n)
           | Some (dist', s', n') =>
               if (dist <? dist')%Z then Some (dist, s, n)
               else if ((dist =? dist') && Z.even s)%Z then Some (dist, s, n)
               else best
           end) None c
  ≫= λ '(_, s, n), Some (s, n).

(** The shortest such numeral: [k] as small as possible, from [k] up. *)
Fixpoint shortest (fuel : nat) (v k : Z) : Z * Z :=
  match fuel with
  | O => (v, decimal_length v)
  | S fuel =>
      match closest (numerals v k) with
      | Some sn => sn
      | None => shortest fuel v (k + 1)%Z
      end
  end.

(** [Number::toString] on the digits [s] and the length [n]: plain digits
    up to 21 of them, exponent notation beyond. *)
Definition digits_form (s n : Z) : string :=
  let ds := pretty s in
  let k := decimal_length s in
  if (n <=? 21)%Z
  then ds +:+ String.concat "" (replicate (Z.to_nat (n - k)) "0")
  else
    match ds with
    | String d rest =>
        (if (k =? 1)%Z then String d "" else String d ("." +:+ rest))
        +:+ "e+" +:+ pretty (n - 1)%Z
    | EmptyString => ds
    end.

(** [String(x)] for the number that the integer numeral [n] denotes. *)
Definition Number_toString (n : Z) : string :=
  let positive n :=
    if (n <? 2 ^ 53)%Z then pretty n
    else
      let v := nearest_double n in
      if (2 ^ 1024 <=? v)%Z then "Infinity"
      else let '(s, len) := shortest 17 v 1 in digits_form s len in
  if (n <? 0)%Z then "-" +:+ positive (- n)%Z else positive n.

(** [String(v)] on a JSON value.  An array is joined with commas, [null]
    elements giving the empty string.  An object parsed from JSON has no
    callable property of its own, so one with an own [toString] key has no
    primitive form ([TypeError]); any other prints as [[object Object]]. *)
Fixpoint to_string (v : value) : result string :=
  match v with
  | Null => inr "null"
  | Bool true => inr "true"
  | Bool false => inr "false"
  | Num n => inr (Number_toString n)
  | Str s => inr s
  | Arr items =>
      (fix join (l : list value) : result string :=
         let element x :=
           match x with
           | Null => inr ""
           | _ => to_string x
           end in
         match l with
         | [] => inr ""
         | [x] => element x
         | x :: rest =>
             match element x with
             | inl e => inl e
             | inr s =>
                 match join rest with
                 | inl e => inl e
                 | inr r => inr (s +:+ "," +:+ r)
                 end
             end
         end) items
  | Obj fields =>
      match fields !! "toString" with
      | Some _ => inl (TypeError "Cannot convert object to primitive value")
      | None => inr "[object Object]"
      end
  end.

(** [String(v)] where [v] may be [undefined]. *)
Definition js_String (v : option value) : result string :=
  match v with
  | None => inr "undefined"
  | Some v => to_string v
  end.

(** The callback [s => String(s.id) === String(id)].  [id] comes from
    [req.params] and is a string already, so [String(id)] is [id]. *)
Definition same_id (id : string) (s : student) : result bool :=
  match js_String (s !! "id") with
  | inl e => inl e
  | inr sid => inr (bool_decide (sid = id))
  end.

(** [Array.prototype.find]: the first element on which the callback
    returns true; the callback's exception, if it throws before that. *)
Fixpoint find {A} (p : A → result bool) (l : list A) : result (option A) :=
  match l with
  | [] => inr None
  | x :: rest =>
      match p x with
      | inl e => inl e
      | inr true => inr (Some x)
      | inr false => find p rest
      end
  end.

(** [Array.prototype.findIndex]: the index of that element, [None] for
    the source's [-1]. *)
Fixpoint findIndex {A} (p : A → result bool) (l : list A) : result (option nat) :=
  match l with
  | [] => inr None
  | x :: rest =>
      match p x with
      | inl e => inl e
      | inr true => inr (Some 0%nat)
      | inr false =>
          match findIndex p rest with
          | inl e => inl e
          | inr i => inr (S <$> i)
          end
      end
  end.

(** [a.splice(index, 1)]: the removed elements and what is left of [a]. *)
Definition splice1 {A} (index : nat) (a : list A) : list A * list A :=
  (take 1 (drop index a), take index a ++ drop (S index) a).

(** The object literal [{ k1: v1, ..., kn: vn }] as JSON keeps it: later
    keys win, and a key whose value is [undefined] is left out. *)
Definition object (fields : list (string * option value)) : gmap string value :=
  foldl (λ o kv, match kv.2 with
                 | Some v => <[kv.1 := v]> o
                 | None => delete kv.1 o
                 end) ∅ fields.

(** The spread [{ ...a, ...b }]: the keys of both, [b] winning where both
    have the key.  Spreading [undefined] adds nothing. *)
Definition spread (a : option student) (b : student) : student :=
  b ∪ default ∅ a.

(** ** The world a handler runs in *)

(** What [res.json] put on the wire. *)
Record response := Response {
  status : Z;
  body : gmap string value
}.

(** Express's [res]: [res.status(c)] only records [c]; [res.json(b)] sends
    [b] under the recorded code, once. *)
Record http_response := HttpResponse {
  statusCode : Z;
  sent : option response
}.

(** [db.data], the datastore's in-memory document.  Its [students] key may
    be missing, in which case [db.data.students] is [undefined]. *)
Record document := Document {
  students : option (list student)
}.

Inductive io_op := IoRead | IoWrite.

(** The datastore object [db] that [server.js] imports: the document on
    stable storage ([None] when it cannot be loaded), whether storage
    accepts a write, the in-memory document, and the storage operations
    attempted so far, oldest first. *)
Record database := Database {
  disk : option document;
  writable : bool;
  data : document;
  io : list io_op
}.

Record world := World {
  db : database;
  res : http_response;
  console : list (string * js_error);
  uuid : string;      (* what the next [uuidv4()] returns *)
  clock : string      (* what [new Date().toISOString()] returns *)
}.

(** [req], as far as the handlers read it: [req.params.id] and [req.body]. *)
Record request := Request {
  params_id : string;
  req_body : gmap string value
}.

Definition with_db (f : database → database) (w : world) : world :=
  World (f (db w)) (res w) (console w) (uuid w) (clock w).

Definition with_res (f : http_response → http_response) (w : world) : world :=
  World (db w) (f (res w)) (console w) (uuid w) (clock w).

Definition with_data (d : document) (b : database) : database :=
  Database (disk b) (writable b) d (io b).

Definition logged (op : io_op) (b : database) : database :=
  Database (disk b) (writable b) (data b) (io b ++ [op]).

(** ** Handler code: state and exceptions *)

(** A piece of handler code runs on the world and returns or throws; the
    world it leaves behind is kept in both cases, since what was mutated
    before a [throw] stays mutated. *)
Definition M (A : Type) : Type := world → result A * world.

#[global] Instance M_ret : MRet M := λ A a w, (inr a, w).

#[global] Instance M_bind : MBind M := λ A B f m w,
  match m w with
  | (inl e, w') => (inl e, w')
  | (inr a, w') => f a w'
  end.

Definition throw {A} (e : js_error) : M A := λ w, (inl e, w).

(** [try { body } catch (error) { handler }] *)
Definition try_catch {A} (body : M A) (handler : js_error → M A) : M A := λ w,
  match body w with
  | (inl e, w') => handler e w'
  | (inr a, w') => (inr a, w')
  end.

Definition gets {A} (f : world → A) : M A := λ w, (inr (f w), w).

Definition modify (f : world → world) : M unit := λ w, (inr (), f w).

(** A pure computation that may throw, run inside a handler. *)
Definition lift {A} (r : result A) : M A := λ w, (r, w).

(** Reading a variable that no scope declares. *)
Definition undeclared {A} (name : string) : M A :=
  throw (ReferenceError (name +:+ " is not defined")).

(** [a.method(...)] where [a] is [db.data.students]: calling a method on
    [undefined] throws. *)
Definition receiver {A} (a : option A) (method : string) : M A :=
  match a with
  | Some l => mret l
  | None =>
      throw (TypeError ("Cannot read properties of undefined (reading '"
                        +:+ method +:+ "')"))
  end.

(** ** Express's response object *)

(** [res.status(code)] *)
Definition res_status (code : Z) : M unit :=
  modify (with_res (λ r, HttpResponse code (sent r))).

(** [res.json(b)]: sends [b] with the recorded status code.  Express
    refuses to send a second time on the same [res]. *)
Definition res_json (b : gmap string value) : M unit := λ w,
  match sent (res w) with
  | Some _ =>
      (inl (Error "Cannot set headers after they are sent to the client"), w)
  | None =>
      (inr (), with_res (λ r, HttpResponse (statusCode r)
                                (Some (Response (statusCode r) b))) w)
  end.

(** [console.error(label, error)] *)
Definition console_error (label : string) (e : js_error) : M unit :=
  modify (λ w, World (db w) (res w) (console w ++ [(label, e)]) (uuid w) (clock w)).

(** [uuidv4()] *)
Definition uuidv4 : M string := gets uuid.

(** [new Date().toISOString()] *)
Definition toISOString_now : M string := gets clock.

(** ** The datastore *)

(** Modelled from the spec: [database.js], which builds [db], is not among
    the sources.  [read()] reloads the in-memory state from disk; a
    storage failure is thrown to the caller. *)
Definition db_read : M unit := λ w,
  match disk (db w) with
  | Some d => (inr (), with_db (λ b, with_data d (logged IoRead b)) w)
  | None => (inl (Error "storage read failed"), with_db (logged IoRead) w)
  end.

(** Modelled from the spec: [database.js] is not among the sources.
    [write()] persists the in-memory state to disk; a storage failure is
    thrown to the caller and leaves the disk as it was. *)
Definition db_write : M unit := λ w,
  if writable (db w)
  then (inr (), with_db (λ b, Database (Some (data b)) (writable b) (data b)
                                 (io b ++ [IoWrite])) w)
  else (inl (Error "storage write failed"), with_db (logged IoWrite) w).

(** Modelled from the spec: [database.js] is not among the sources.
    [update(mutator)] is mutate-then-flush: the mutator runs on the
    in-memory document, then the document is written.  The mutator is
    handed [db.data] itself, so it is a piece of code acting on the
    world's document; if it throws, nothing is written. *)
Definition db_update {A} (mutator : M A) : M A :=
  a ← mutator; db_write;; mret a.

(** [db.data.students] *)
Definition db_data_students : M (option (list student)) :=
  gets (λ w, students (data (db w))).

(** [db.data.students = a], as the in-place array methods leave it. *)
Definition set_students (a : list student) : M unit :=
  modify (with_db (with_data (Document (Some a)))).

(** [db.data.students[index]], [undefined] out of range. *)
Definition students_at (index : nat) : M (option student) :=
  a ← db_data_students;
  l ← receiver a (pretty index);
  mret (l !! index).

(** [db.data.students[index] = s].  The handlers only assign at an index
    that [findIndex] returned on the same array, which is in range; there
    the element is replaced and the length kept. *)
Definition students_assign (index : nat) (s : student) : M unit :=
  a ← db_data_students;
  l ← receiver a (pretty index);
  set_students (<[index := s]> l).

(** [students.push(s)] on [db.data.students] *)
Definition students_push (s : student) : M unit :=
  a ← db_data_students;
  l ← receiver a "push";
  set_students (l ++ [s]).

(** [students.splice(index, 1)[0]] on [db.data.students] *)
Definition students_splice (index : nat) : M (option student) :=
  a ← db_data_students;
  l ← receiver a "splice";
  let '(removed, rest) := splice1 index l in
  set_students rest;;
  mret (removed !! 0%nat).

(** ** The handlers, first variant of [server.js] *)

Module First.

(** [app.get('/api/students', ...)] *)
Definition get_students (req : request) : M unit :=
  try_catch
    (db_read;;
     a ← db_data_students;
     let students := default [] a in
     res_status 200;;
     res_json (object [("success", Some (Bool true));
                       ("count", Some (Num (Z.of_nat (length students))));
                       ("data", Some (Arr (Obj <$> students)))]))
    (λ error,
       console_error "Error in GET /api/students:" error;;
       res_status 500;;
       res_json (object [("success", Some (Bool false));
                         ("message", Some (Str "Error retrieving students"));
                         ("error", Some (Str (error_message error)))])).

(** [app.get('/api/students/:id', ...)].  After the found student is sent
    the handler goes on to a second [res.status(200).json(...)] whose
    argument reads [item], a name declared nowhere. *)
Definition get_student (req : request) : M unit :=
  try_catch
    (let id := params_id req in
     db_read;;
     a ← db_data_students;
     l ← receiver a "find";
     student ← lift (find (same_id id) l);
     match student with
     | None =>
         res_status 404;;
         res_json (object [("success", Some (Bool false));
                           ("message", Some (Str "Student not found"))])
     | Some s =>
         res_status 200;;
         res_json (object [("success", Some (Bool true));
                           ("data", Some (Obj s))]);;
         res_status 200;;
         item ← undeclared "item";
         res_json (object [("success", Some (Bool true));
                           ("data", item)])
     end)
    (λ error,
       console_error "Error in GET /api/students/:id:" error;;
       res_status 500;;
       res_json (object [("success", Some (Bool false));
                         ("message", Some (Str "Error retrieving student"));
                         ("error", Some (Str (error_message error)))])).

(** [app.post('/api/students', ...)] *)
Definition post_student (req : request) : M unit :=
  try_catch
    (let name := req_body req !! "name" in
     let email := req_body req !! "email" in
     if negb (truthy name) || negb (truthy email)
     then
       res_status 400;;
       res_json (object [("success", Some (Bool false));
                         ("message", Some (Str "Name and email are required"))])
     else
       id ← uuidv4;
       createdAt ← toISOString_now;
       let newStudent := object [("id", Some (Str id));
                                 ("name", name);
                                 ("email", email);
                                 ("createdAt", Some (Str createdAt))] in
       db_update (students_push newStudent);;
       res_status 201;;
       res_json (object [("success", Some (Bool true));
                         ("data", Some (Obj newStudent))]))
    (λ error,
       console_error "Error in POST /api/students:" error;;
       res_status 500;;
       res_json (object [("success", Some (Bool false));
                         ("message", Some (Str "Error creating students"));
                         ("error", Some (Str (error_message error)))])).

(** [app.put('/api/students/:id', ...)] *)
Definition put_student (req : request) : M unit :=
  try_catch
    (let id := params_id req in
     let changes := req_body req in
     db_read;;
     a ← db_data_students;
     l ← receiver a "findIndex";
     index ← lift (findIndex (same_id id) l);
     match index with
     | None =>
         res_status 404;;
         res_json (object [("success", Some (Bool false));
                           ("message", Some (Str "Student not found"))])
     | Some index =>
         existing ← students_at index;
         updatedAt ← toISOString_now;
         students_assign index
           (<["updatedAt" := Str updatedAt]> (spread existing changes));;
         db_write;;
         res_status 200;;
         updated ← students_at index;
         res_json (object [("success", Some (Bool true));
                           ("data", Obj <$> updated)])
     end)
    (λ error,
       console_error "Error in PUT /api/students/:id:" error;;
       res_status 500;;
       res_json (object [("success", Some (Bool false));
                         ("message", Some (Str "Error updating students"));
                         ("error", Some (Str (error_message error)))])).

(** [app.delete('/api/students/:id', ...)].  The removed student is kept
    in [removedStudent]; the response reads [deletedItem], a name declared
    nowhere. *)
Definition delete_student (req : request) : M unit :=
  try_catch
    (let id := params_id req in
     db_read;;
     a ← db_data_students;
     l ← receiver a "findIndex";
     index ← lift (findIndex (same_id id) l);
     match index with
     | None =>
         res_status 404;;
         res_json (object [("success", Some (Bool false));
                           ("message", Some (Str "Student not found"))])
     | Some index =>
         removedStudent ← db_update (students_splice index);
         res_status 200;;
         deletedItem ← undeclared "deletedItem";
         res_json (object [("success", Some (Bool true));
                           ("data", deletedItem)])
     end)
    (λ error,
       console_error "Error in DELETE /api/resource/:id:" error;;
       res_status 500;;
       res_json (object [("success", Some (Bool false));
                         ("message", Some (Str "Error deleting resource"));
                         ("error", Some (Str (error_message error)))])).

(** [app.get('/', ...)]: the welcome route.  It sends without setting a
    status, so under the response's initial code. *)
Definition get_root (req : request) : M unit :=
  res_json (object [("message", Some (Str "Welcome to my Project 4 REST API!"));
                    ("version", Some (Str "1.0.0"));
                    ("endpoints",
                     Some (Obj (object
                       [("allResources", Some (Str "GET /api/students"));
                        ("singleResource", Some (Str "GET /api/students/:id"));
                        ("createResource", Some (Str "POST /api/students"));
                        ("updateResource", Some (Str "PUT /api/resource/:id"));
                        ("deleteResource", Some (Str "DELETE /api/resource/:id"))])))]).

(** [app.use('*', ...)]: the handler of every request no route above
    took.  [originalUrl] is [req.originalUrl]. *)
Definition not_found (originalUrl : string) (req : request) : M unit :=
  res_status 404;;
  res_json (object [("success", Some (Bool false));
                    ("message", Some (Str "Route not found"));
                    ("requestedUrl", Some (Str originalUrl))]).

End First.

(** ** The handlers, second variant of [server.js] *)

Module Second.

(** [app.get('/api/students', ...)] *)
Definition get_students (req : request) : M unit :=
  try_catch
    (db_read;;
     a ← db_data_students;
     let students := default [] a in
     res_status 200;;
     res_json (object [("success", Some (Bool true));
                       ("count", Some (Num (Z.of_nat (length students))));
                       ("data", Some (Arr (Obj <$> students)))]))
    (λ error,
       console_error "Error in GET /api/students:" error;;
       res_status 500;;
       res_json (object [("success", Some (Bool false));
                         ("message", Some (Str "Error retrieving students"));
                         ("error", Some (Str (error_message error)))])).

(** [app.get('/api/students/:id', ...)] *)
Definition get_student (req : request) : M unit :=
  try_catch
    (let id := params_id req in
     db_read;;
     a ← db_data_students;
     l ← receiver a "find";
     student ← lift (find (same_id id) l);
     match student with
     | None =>
         res_status 404;;
         res_json (object [("success", Some (Bool false));
                           ("message", Some (Str "Student not found"))])
     | Some s =>
         res_status 200;;
         res_json (object [("success", Some (Bool true));
                           ("data", Some (Obj s))])
     end)
    (λ error,
       console_error "Error in GET /api/students/:id:" error;;
       res_status 500;;
       res_json (object [("success", Some (Bool false));
                         ("message", Some (Str "Error retrieving student"));
                         ("error", Some (Str (error_message error)))])).

(** [app.post('/api/students', ...)] *)
Definition post_student (req : request) : M unit :=
  try_catch
    (let name := req_body req !! "name" in
     let email := req_body req !! "email" in
     if negb (truthy name) || negb (truthy email)
     then
       res_status 400;;
       res_json (object [("success", Some (Bool false));
                         ("message", Some (Str "Name and email are required"))])
     else
       id ← uuidv4;
       createdAt ← toISOString_now;
       let newStudent := object [("id", Some (Str id));
                                 ("name", name);
                                 ("email", email);
                                 ("createdAt", Some (Str createdAt))] in
       db_update (students_push newStudent);;
       res_status 201;;
       res_json (object [("success", Some (Bool true));
                         ("data", Some (Obj newStudent))]))
    (λ error,
       console_error "Error in POST /api/students:" error;;
       res_status 500;;
       res_json (object [("success", Some (Bool false));
                         ("message", Some (Str "Error creating student"));
                         ("error", Some (Str (error_message error)))])).

(** [app.put('/api/students/:id', ...)] *)
Definition put_student (req : request) : M unit :=
  try_catch
    (let id := params_id req in
     let changes := req_body req in
     db_read;;
     a ← db_data_students;
     l ← receiver a "findIndex";
     index ← lift (findIndex (same_id id) l);
     match index with
     | None =>
         res_status 404;;
         res_json (object [("success", Some (Bool false));
                           ("message", Some (Str "Student not found"))])
     | Some index =>
         existing ← students_at index;
         updatedAt ← toISOString_now;
         students_assign index
           (<["updatedAt" := Str updatedAt]> (spread existing changes));;
         db_write;;
         res_status 200;;
         updated ← students_at index;
         res_json (object [("success", Some (Bool true));
                           ("data", Obj <$> updated)])
     end)
    (λ error,
       console_error "Error in PUT /api/students/:id:" error;;
       res_status 500;;
       res_json (object [("success", Some (Bool false));
                         ("message", Some (Str "Error updating student"));
                         ("error", Some (Str (error_message error)))])).

(** [app.delete('/api/students/:id', ...)] *)
Definition delete_student (req : request) : M unit :=
  try_catch
    (let id := params_id req in
     db_read;;
     a ← db_data_students;
     l ← receiver a "findIndex";
     index ← lift (findIndex (same_id id) l);
     match index with
     | None =>
         res_status 404;;
         res_json (object [("success", Some (Bool false));
                           ("message", Some (Str "Student not found"))])
     | Some index =>
         removedStudent ← db_update (students_splice index);
         res_status 200;;
         res_json (object [("success", Some (Bool true));
                           ("data", Obj <$> removedStudent)])
     end)
    (λ error,
       console_error "Error in DELETE /api/students/:id:" error;;
       res_status 500;;
       res_json (object [("success", Some (Bool false));
                         ("message", Some (Str "Error deleting student"));
                         ("error", Some (Str (error_message error)))])).

(** [app.get('/', ...)]: the welcome route.  It sends without setting a
    status, so under the response's initial code. *)
Definition get_root (req : request) : M unit :=
  res_json (object [("message", Some (Str "Welcome to my Project 4 REST API!"));
                    ("version", Some (Str "1.0.0"));
                    ("endpoints",
                     Some (Obj (object
                       [("allResources", Some (Str "GET /api/students"));
                        ("singleResource", Some (Str "GET /api/students/:id"));
                        ("createResource", Some (Str "POST /api/students"));
                        ("updateResource", Some (Str "PUT /api/resource/:id"));
                        ("deleteResource", Some (Str "DELETE /api/resource/:id"))])))]).

(** [app.use('*', ...)]: the handler of every request no route above
    took.  [originalUrl] is [req.originalUrl]. *)
Definition not_found (originalUrl : string) (req : request) : M unit :=
  res_status 404;;
  res_json (object [("success", Some (Bool false));
                    ("message", Some (Str "Route not found"));
                    ("requestedUrl", Some (Str originalUrl))]).

End Second.

(** ** Serving a request *)

(** Express gives every request a response object of its own, with status
    code 200 and nothing sent yet. *)
Definition incoming (w : world) : world :=
  with_res (λ _, HttpResponse 200 None) w.

(** The world after [handler] has run on [req]. *)
Definition serve (handler : request → M unit) (req : request) (w : world) : world :=
  (handler req (incoming w)).2.

(** What the client receives: the response the handler sent, if any. *)
Definition reply (handler : request → M unit) (req : request) (w : world)
  : option response :=
  sent (res (serve handler req w)).

(** The exception that escaped the handler, if one did: the promise of the
    [async] function is then rejected. *)
Definition rejection (handler : request → M unit) (req : request) (w : world)
  : option js_error :=
  match (handler req (incoming w)).1 with
  | inl e => Some e
  | inr _ => None
  end.

(** The collection as stored on disk and as held in memory. *)
Definition stored (w : world) : option (list student) :=
  d ← disk (db w); students d.

Definition held (w : world) : option (list student) :=
  students (data (db w)).

(** ** Vocabulary of the statements *)

(** The student's id has the string form [id]: the match that the
    handlers test for, whatever the JSON type of the stored id. *)
Definition id_is (id : string) (s : student) : Prop :=
  js_String (s !! "id") = inr id.

(** The student's id has a string form, and it is not [id]. *)
Definition id_differs (id : string) (s : student) : Prop :=
  ∃ sid, js_String (s !! "id") = inr sid ∧ sid ≠ id.

(** [s], at index [i] of [l], is the first student of [l] whose id matches. *)
Definition first_match (id : string) (l : list student) (i : nat) (s : student)
  : Prop :=
  l !! i = Some s ∧ id_is id s ∧ Forall (id_differs id) (take i l).

(** No student of [l] has an id that matches. *)
Definition no_match (id : string) (l : list student) : Prop :=
  Forall (id_differs id) l.

(** An integer below [2^53] in magnitude: it is a double as it stands,
    and its string form is its decimal numeral. *)
Definition safe_integer (n : Z) : Prop := (Z.abs n < 2 ^ 53)%Z.

(** The student's id is a string other than [id], or a safe integer whose
    decimal numeral is not [id]. *)
Definition other_plain_id (id : string) (s : student) : Prop :=
  (∃ x, s !! "id" = Some (Str x) ∧ x ≠ id)
  ∨ (∃ n, s !! "id" = Some (Num n) ∧ safe_integer n ∧ pretty n ≠ id).

(** A required creation field is missing: absent from the payload, or the
    empty string. *)
Definition missing (v : option value) : Prop :=
  v = None ∨ v = Some (Str "").

(** Field [k] of the student at index [i] of a collection. *)
Definition field_of (c : option (list student)) (i : nat) (k : string)
  : option value :=
  l ← c; s ← l !! i; s !! k.

(** The string forms of the ids of a collection, in order. *)
Definition id_strings (l : list student) : list (result string) :=
  (λ s, js_String (s !! "id")) <$> l.

(** The same world with a storage that refuses writes, that takes them
    again, and whose document cannot be loaded. *)
Definition write_protected (w : world) : world :=
  with_db (λ b, Database (disk b) false (data b) (io b)) w.

Definition write_enabled (w : world) : world :=
  with_db (λ b, Database (disk b) true (data b) (io b)) w.

Definition unreadable (w : world) : world :=
  with_db (λ b, Database None (writable b) (data b) (io b)) w.

(** ** A small collection to run the handlers on *)

Definition ada : student :=
  {[ "id" := Str "a1"; "name" := Str "Ada"; "email" := Str "ada@x.com";
     "createdAt" := Str "2025-01-01T09:00:00.000Z" ]}.

(** A record whose id was stored as a number. *)
Definition bob : student :=
  {[ "id" := Num 7; "name" := Str "Bob"; "email" := Str "bob@x.com" ]}.

Definition registry : world :=
  World (Database (Some (Document (Some [ada; bob]))) true
                  (Document (Some [ada; bob])) [])
        (HttpResponse 200 None) []
        "3f2b8c1e-7d4a-4c55-9e0b-6a1f2d3c4b5a" "2025-06-01T12:00:00.000Z".

(** Requests on it. *)
Definition change_email : request :=
  Request "a1" {[ "email" := Str "new@x.com" ]}.

Definition rename_bob : request :=
  Request "7" {[ "name" := Str "Rob" ]}.

Definition backdate_bob : request :=
  Request "7" {[ "updatedAt" := Str "1999-12-31T00:00:00.000Z" ]}.

Definition rekey_ada : request :=
  Request "a1" {[ "id" := Str "zz" ]}.

Definition rekey_nobody : request :=
  Request "zz" {[ "name" := Str "Zed" ]}.

Definition enrol_cy : request :=
  Request "" {[ "name" := Str "Cy"; "email" := Str "cy@x.com"; "age" := Num 30 ]}.

Definition enrol_nameless : request :=
  Request "" {[ "name" := Str ""; "email" := Str "anon@x.com" ]}.

(** A store with nobody in it yet, and a first enrolment. *)
Definition vacant : world :=
  World (Database (Some (Document (Some []))) true (Document (Some [])) [])
        (HttpResponse 200 None) []
        "3f2b8c1e-7d4a-4c55-9e0b-6a1f2d3c4b5a" "2025-06-01T12:00:00.000Z".

Definition enrol_ada : request :=
  Request "" {[ "name" := Str "Ada"; "email" := Str "ada@x.com" ]}.

(** A student stored without an [id]. *)
Definition nemo : student :=
  {[ "name" := Str "Nemo"; "email" := Str "nemo@x.com" ]}.

(** A store whose memory is behind its disk: Bob is on disk only. *)
Definition stale : world :=
  World (Database (Some (Document (Some [ada; bob]))) true
                  (Document (Some [ada])) [])
        (HttpResponse 200 None) []
        "3f2b8c1e-7d4a-4c55-9e0b-6a1f2d3c4b5a" "2025-06-01T12:00:00.000Z".

(** A store with a student that has no [id]. *)
Definition anonymous : world :=
  World (Database (Some (Document (Some [ada; nemo; bob]))) true
                  (Document (Some [ada; nemo; bob])) [])
        (HttpResponse 200 None) []
        "3f2b8c1e-7d4a-4c55-9e0b-6a1f2d3c4b5a" "2025-06-01T12:00:00.000Z".

(** A student whose id is an object with a [toString] key, and a store
    that holds it ahead of Bob. *)
Definition opaque : student :=
  {[ "id" := Obj {[ "toString" := Num 1 ]}; "name" := Str "Opaque" ]}.

Definition blocked : world :=
  World (Database (Some (Document (Some [opaque; bob]))) true
                  (Document (Some [opaque; bob])) [])
        (HttpResponse 200 None) []
        "3f2b8c1e-7d4a-4c55-9e0b-6a1f2d3c4b5a" "2025-06-01T12:00:00.000Z".

(** A student whose id is the number [1e21], alone in a store. *)
Definition gia : student :=
  {[ "id" := Num (10 ^ 21); "name" := Str "Gia" ]}.

Definition outsized : world :=
  World (Database (Some (Document (Some [gia]))) true
                  (Document (Some [gia])) [])
        (HttpResponse 200 None) []
        "3f2b8c1e-7d4a-4c55-9e0b-6a1f2d3c4b5a" "2025-06-01T12:00:00.000Z".

(** The same store when its document has no [students] key. *)
Definition keyless : world :=
  World (Database (Some (Document None)) true (Document None) [])
        (HttpResponse 200 None) []
        "3f2b8c1e-7d4a-4c55-9e0b-6a1f2d3c4b5a" "2025-06-01T12:00:00.000Z".

(** * Theorems *)

(** ** Running handler code *)

(** Reduce what the world's fields and the options decide. *)
Ltac step :=
  cbn beta iota zeta delta
    [db res console uuid clock disk writable data io students
     statusCode sent status body params_id req_body
     fst snd default from_option id fmap option_fmap option_map
     mbind option_bind].

(** Unfold a handler down to the search and the map and list operations. *)
Ltac run :=
  unfold reply, rejection, stored, held, serve, incoming,
    First.get_students, First.get_student, First.post_student,
    First.put_student, First.delete_student,
    Second.get_students, Second.get_student, Second.post_student,
    Second.put_student, Second.delete_student,
    try_catch, db_update, students_at, students_assign, students_push,
    students_splice, splice1, db_read, db_write, db_data_students,
    set_students, res_status, res_json, console_error, uuidv4,
    toISOString_now, undeclared, receiver, throw, gets, modify, lift,
    with_db, with_res, with_data, logged, mbind, M_bind, mret, M_ret;
  step.

(** A world whose stored collection is [l], taken apart. *)
Ltac open_world w Hl :=
  destruct w as [[[[[?|]]|] ? ? ?] ? ? ? ?];
  unfold stored in Hl; simpl in Hl; try discriminate Hl;
  injection Hl as ->.

(** Look a key up in an object literal. *)
Ltac object_lookup :=
  unfold object; cbn [foldl fst snd];
  repeat first [ rewrite lookup_insert_eq; reflexivity
               | rewrite lookup_insert_ne by discriminate
               | rewrite lookup_delete_eq; reflexivity
               | rewrite lookup_delete_ne by discriminate
               | rewrite lookup_empty; reflexivity ].

(** ** The search *)

Section search.
Context (id : string).

Lemma same_id_is s : id_is id s → same_id id s = inr true.
Proof.
  unfold id_is, same_id. intros ->. by rewrite bool_decide_eq_true_2.
Qed.

Lemma same_id_differs s : id_differs id s → same_id id s = inr false.
Proof.
  unfold same_id. intros (sid & -> & Hne). by rewrite bool_decide_eq_false_2.
Qed.

Lemma same_id_true s : same_id id s = inr true → id_is id s.
Proof.
  unfold id_is, same_id. destruct (js_String _) as [e|sid]; [done|].
  intros [= H%bool_decide_eq_true_1]. by subst.
Qed.

Lemma same_id_false s : same_id id s = inr false → id_differs id s.
Proof.
  unfold id_differs, same_id. destruct (js_String _) as [e|sid]; [done|].
  intros [= H%bool_decide_eq_false_1]. by exists sid.
Qed.

Lemma findIndex_first_match l i s :
  first_match id l i s → findIndex (same_id id) l = inr (Some i).
Proof.
  revert i. induction l as [|x l IH]; intros i (Hi & His & Hbefore).
  - done.
  - destruct i as [|i]; simpl in *.
    + injection Hi as ->. by rewrite same_id_is.
    + apply Forall_cons in Hbefore as [Hx Hbefore].
      rewrite (same_id_differs _ Hx), (IH i); [done|by split].
Qed.

Lemma find_first_match l i s :
  first_match id l i s → find (same_id id) l = inr (Some s).
Proof.
  revert i. induction l as [|x l IH]; intros i (Hi & His & Hbefore).
  - done.
  - destruct i as [|i]; simpl in *.
    + injection Hi as ->. by rewrite same_id_is.
    + apply Forall_cons in Hbefore as [Hx Hbefore].
      rewrite (same_id_differs _ Hx). apply (IH i). by split.
Qed.

Lemma findIndex_no_match l :
  no_match id l → findIndex (same_id id) l = inr None.
Proof.
  induction 1 as [|x l Hx _ IH]; simpl; [done|].
  by rewrite (same_id_differs _ Hx), IH.
Qed.

Lemma find_no_match l :
  no_match id l → find (same_id id) l = inr None.
Proof.
  induction 1 as [|x l Hx _ IH]; simpl; [done|].
  by rewrite (same_id_differs _ Hx).
Qed.

(** Conversely, whatever index the search returns is a first match, and
    a search that returns nothing has seen no match. *)
Lemma findIndex_Some l i :
  findIndex (same_id id) l = inr (Some i) → ∃ s, first_match id l i s.
Proof.
  revert i. induction l as [|x l IH]; intros i; simpl; [done|].
  destruct (same_id id x) as [e|[]] eqn:Hx; [done| |].
  - intros [= <-]. exists x. repeat split; [|constructor].
    by apply same_id_true.
  - destruct (findIndex (same_id id) l) as [e|[j|]]; simpl; [done| |done].
    intros [= <-]. destruct (IH j eq_refl) as (s & Hj & His & Hbefore).
    exists s. repeat split; [done..|].
    simpl. constructor; [by apply same_id_false|done].
Qed.

Lemma findIndex_None l :
  findIndex (same_id id) l = inr None → no_match id l.
Proof.
  induction l as [|x l IH]; simpl; [constructor|].
  destruct (same_id id x) as [e|[]] eqn:Hx; [done..|].
  destruct (findIndex (same_id id) l) as [e|[j|]]; simpl; [done..|].
  intros _. constructor; [by apply same_id_false|by apply IH].
Qed.

Lemma first_match_lt l i s : first_match id l i s → (i < length l)%nat.
Proof. intros (Hi & _). by eapply lookup_lt_Some. Qed.
End search.

(** ** The language's operations on examples *)

Example to_string_array :
  to_string (Arr [Num 1; Null; Arr [Str "a"; Bool true]; Obj ∅])
  = inr "1,,a,true,[object Object]".
Proof. reflexivity. Qed.

Example to_string_negative : to_string (Num (-42)) = inr "-42".
Proof. reflexivity. Qed.

Example to_string_two_to_60 :
  to_string (Num (2 ^ 60)) = inr "1152921504606847000".
Proof. vm_compute. reflexivity. Qed.

Example to_string_ten_to_21 : to_string (Num (10 ^ 21)) = inr "1e+21".
Proof. vm_compute. reflexivity. Qed.

Example to_string_ten_to_21_less_one :
  to_string (Num (10 ^ 21 - 1)) = inr "1e+21".
Proof. vm_compute. reflexivity. Qed.

Example to_string_above_two_to_53 :
  to_string (Num (2 ^ 53 + 1)) = inr "9007199254740992".
Proof. vm_compute. reflexivity. Qed.

Example to_string_long_mantissa :
  to_string (Num (-123456789012345678901234567890))
  = inr "-1.2345678901234568e+29".
Proof. vm_compute. reflexivity. Qed.

Example String_undefined : js_String None = inr "undefined".
Proof. reflexivity. Qed.

Example String_toString_key :
  js_String (Some (Obj {[ "toString" := Num 1 ]}))
  = inl (TypeError "Cannot convert object to primitive value").
Proof. reflexivity. Qed.

Example truthy_zero : truthy (Some (Num 0)) = false.
Proof. reflexivity. Qed.

Example truthy_empty_array : truthy (Some (Arr [])) = true.
Proof. reflexivity. Qed.

Example same_id_numeric : same_id "7" bob = inr true.
Proof. reflexivity. Qed.

Example findIndex_bob : findIndex (same_id "7") [ada; bob] = inr (Some 1%nat).
Proof. reflexivity. Qed.

Example splice1_middle : splice1 1 [10; 20; 30]%Z = ([20], [10; 30])%Z.
Proof. reflexivity. Qed.

Example object_drops_undefined :
  object [("success", Some (Bool true)); ("data", None)]
  = {[ "success" := Bool true ]}.
Proof. reflexivity. Qed.

(** ** The sample collection *)

Lemma ada_first : first_match "a1" [ada; bob] 0 ada.
Proof. repeat split. constructor. Qed.

Lemma bob_first : first_match "7" [ada; bob] 1 bob.
Proof.
  repeat split. repeat constructor. exists "a1". by split.
Qed.

Lemma nobody_matches : no_match "zz" [ada; bob].
Proof.
  repeat constructor; [exists "a1" | exists "7"]; by split.
Qed.

(** ** Update *)

Section update.
Context (req : request) (w : world) (l : list student) (i : nat) (s : student).

(** The object the handler assigns: the old fields, the payload over
    them, [updatedAt] over both. *)
Lemma merge_lookup k :
  k ≠ "updatedAt" →
  <["updatedAt" := Str (clock w)]> (spread (Some s) (req_body req)) !! k
    = match req_body req !! k with
      | Some v => Some v
      | None => s !! k
      end.
Proof.
  intros Hk. unfold spread. simpl.
  rewrite lookup_insert_ne by done. rewrite lookup_union.
  destruct (req_body req !! k), (s !! k); done.
Qed.

Context (Hstored : stored w = Some l).
Context (Hfirst : first_match (params_id req) l i s).
Context (Hwritable : writable (db w) = true).

(** Both variants answer 200 with the merged entity, which replaces the
    old one in memory and on disk. *)
Lemma put_found :
  Forall (λ put_student,
    reply put_student req w
      = Some (Response 200
                (object [("success", Some (Bool true));
                         ("data", Some (Obj (<["updatedAt" := Str (clock w)]>
                                               (spread (Some s) (req_body req)))))]))
    ∧ held (serve put_student req w)
      = Some (<[i := <["updatedAt" := Str (clock w)]>
                        (spread (Some s) (req_body req))]> l)
    ∧ stored (serve put_student req w)
      = Some (<[i := <["updatedAt" := Str (clock w)]>
                        (spread (Some s) (req_body req))]> l))
    [First.put_student; Second.put_student].
Proof.
  pose proof (findIndex_first_match _ _ _ _ Hfirst) as Hfind.
  pose proof (first_match_lt _ _ _ _ Hfirst) as Hlt.
  destruct Hfirst as (Hi & _). clear Hfirst.
  open_world w Hstored. simpl in Hwritable. subst.
  repeat constructor; run; rewrite Hfind; step; rewrite Hi; step;
    try reflexivity.
  all: by rewrite list_lookup_insert_eq.
Qed.
End update.

(** C7. An update of an existing student stores, at the student's place,
    the shallow merge of the prior fields with the payload's, the payload
    winning where both have a key, with [updatedAt] set by the server; a
    payload of only [email] keeps [name] and [id] and sets [email]; the
    merged entity is written to disk and returned with status 200. *)
Theorem update_shallow_merge req w l i s :
  stored w = Some l →
  first_match (params_id req) l i s →
  writable (db w) = true →
  ∃ entity : student,
    (∀ k, k ≠ "updatedAt" →
       entity !! k = match req_body req !! k with
                     | Some v => Some v
                     | None => s !! k
                     end)
    ∧ entity !! "updatedAt" = Some (Str (clock w))
    ∧ (∀ v, req_body req = {[ "email" := v ]} →
         entity !! "email" = Some v
         ∧ entity !! "name" = s !! "name"
         ∧ entity !! "id" = s !! "id")
    ∧ Forall (λ put_student,
        reply put_student req w
          = Some (Response 200 (object [("success", Some (Bool true));
                                        ("data", Some (Obj entity))]))
        ∧ held (serve put_student req w) = Some (<[i := entity]> l)
        ∧ stored (serve put_student req w) = Some (<[i := entity]> l))
        [First.put_student; Second.put_student].
Proof.
  intros Hl Hm Hw.
  exists (<["updatedAt" := Str (clock w)]> (spread (Some s) (req_body req))).
  split; [|split; [|split]].
  - intros k Hk. by apply merge_lookup.
  - apply lookup_insert_eq.
  - intros v Hv.
    rewrite !merge_lookup by done. rewrite Hv.
    rewrite lookup_singleton_eq, !lookup_singleton_ne by done. done.
  - by apply put_found.
Qed.

Lemma update_shallow_merge_witness :
  ∃ entity : student,
    (∀ k, k ≠ "updatedAt" →
       entity !! k = match req_body change_email !! k with
                     | Some v => Some v
                     | None => ada !! k
                     end)
    ∧ entity !! "updatedAt" = Some (Str (clock registry))
    ∧ (∀ v, req_body change_email = {[ "email" := v ]} →
         entity !! "email" = Some v
         ∧ entity !! "name" = ada !! "name"
         ∧ entity !! "id" = ada !! "id")
    ∧ Forall (λ put_student,
        reply put_student change_email registry
          = Some (Response 200 (object [("success", Some (Bool true));
                                        ("data", Some (Obj entity))]))
        ∧ held (serve put_student change_email registry)
          = Some (<[0%nat := entity]> [ada; bob])
        ∧ stored (serve put_student change_email registry)
          = Some (<[0%nat := entity]> [ada; bob]))
        [First.put_student; Second.put_student].
Proof.
  apply (update_shallow_merge change_email registry [ada; bob] 0 ada).
  - reflexivity.
  - exact ada_first.
  - reflexivity.
Defined.

(** C9. After an update of an existing student the stored [updatedAt] is
    the server's timestamp, whatever the payload holds under that key. *)
Theorem update_stamps_updatedAt req w l i s :
  stored w = Some l →
  first_match (params_id req) l i s →
  writable (db w) = true →
  Forall (λ put_student,
    field_of (stored (serve put_student req w)) i "updatedAt"
      = Some (Str (clock w))
    ∧ field_of (held (serve put_student req w)) i "updatedAt"
      = Some (Str (clock w)))
    [First.put_student; Second.put_student].
Proof.
  intros Hl Hm Hw.
  pose proof (put_found req w l i s Hl Hm Hw) as Hput.
  pose proof (first_match_lt _ _ _ _ Hm) as Hlt.
  eapply Forall_impl; [exact Hput|].
  intros put_student (_ & -> & ->). unfold field_of. simpl.
  rewrite list_lookup_insert_eq by done. simpl.
  split; apply lookup_insert_eq.
Qed.

Lemma update_stamps_updatedAt_witness :
  Forall (λ put_student,
    field_of (stored (serve put_student backdate_bob registry)) 1 "updatedAt"
      = Some (Str (clock registry))
    ∧ field_of (held (serve put_student backdate_bob registry)) 1 "updatedAt"
      = Some (Str (clock registry)))
    [First.put_student; Second.put_student].
Proof.
  apply (update_stamps_updatedAt backdate_bob registry [ada; bob] 1 bob).
  - reflexivity.
  - exact bob_first.
  - reflexivity.
Defined.

(** C2, as the code has it.  After an update of an existing student the
    stored [id] is the payload's [id] when the payload has that key, and
    the prior [id] otherwise. *)
Theorem update_id_from_payload_or_kept req w l i s :
  stored w = Some l →
  first_match (params_id req) l i s →
  writable (db w) = true →
  Forall (λ put_student,
    field_of (stored (serve put_student req w)) i "id"
      = match req_body req !! "id" with
        | Some v => Some v
        | None => field_of (stored w) i "id"
        end)
    [First.put_student; Second.put_student].
Proof.
  intros Hl Hm Hw.
  pose proof (put_found req w l i s Hl Hm Hw) as Hput.
  pose proof (first_match_lt _ _ _ _ Hm) as Hlt.
  eapply Forall_impl; [exact Hput|].
  intros put_student (_ & _ & ->). rewrite Hl. unfold field_of. simpl.
  rewrite list_lookup_insert_eq by done. simpl.
  rewrite merge_lookup by done.
  destruct Hm as (-> & _). done.
Qed.

Lemma update_id_from_payload_or_kept_witness :
  Forall (λ put_student,
    field_of (stored (serve put_student rename_bob registry)) 1 "id"
      = match req_body rename_bob !! "id" with
        | Some v => Some v
        | None => field_of (stored registry) 1 "id"
        end)
    [First.put_student; Second.put_student].
Proof.
  apply (update_id_from_payload_or_kept rename_bob registry [ada; bob] 1 bob).
  - reflexivity.
  - exact bob_first.
  - reflexivity.
Defined.

(** C2, as stated, fails: an update of Ada whose payload carries an [id]
    stores that [id] in place of hers, in both variants. *)
Lemma update_overrides_id :
  first_match "a1" [ada; bob] 0 ada
  ∧ stored registry = Some [ada; bob]
  ∧ field_of (stored registry) 0 "id" = Some (Str "a1")
  ∧ Forall (λ put_student,
      field_of (stored (serve put_student rekey_ada registry)) 0 "id"
        = Some (Str "zz")
      ∧ field_of (stored (serve put_student rekey_ada registry)) 0 "id"
        ≠ field_of (stored registry) 0 "id")
      [First.put_student; Second.put_student].
Proof.
  split; [exact ada_first|]. split; [reflexivity|]. split; [reflexivity|].
  repeat constructor; try (vm_compute; reflexivity); vm_compute; discriminate.
Qed.

(** ** Delete *)

Lemma splice_removed {A} (l : list A) i : take 1 (drop i l) !! 0%nat = l !! i.
Proof.
  rewrite lookup_take_lt by lia. rewrite lookup_drop. f_equal. lia.
Qed.

Section delete.
Context (req : request) (w : world) (l : list student) (i : nat) (s : student).
Context (Hstored : stored w = Some l).
Context (Hfirst : first_match (params_id req) l i s).
Context (Hwritable : writable (db w) = true).

(** The second variant answers 200 with the student it removed. *)
Lemma delete_second_variant_returns_removed :
  reply Second.delete_student req w
    = Some (Response 200 (object [("success", Some (Bool true));
                                  ("data", Some (Obj s))])).
Proof.
  pose proof (findIndex_first_match _ _ _ _ Hfirst) as Hfind.
  destruct Hfirst as (Hi & _). clear Hfirst.
  open_world w Hstored. simpl in Hwritable. subst.
  run. rewrite Hfind. step. by rewrite splice_removed, Hi.
Qed.

(** Both variants take the student out, in memory and on disk. *)
Lemma delete_found :
  Forall (λ delete_student,
    held (serve delete_student req w) = Some (take i l ++ drop (S i) l)
    ∧ stored (serve delete_student req w) = Some (take i l ++ drop (S i) l))
    [First.delete_student; Second.delete_student].
Proof.
  pose proof (findIndex_first_match _ _ _ _ Hfirst) as Hfind.
  open_world w Hstored. simpl in Hwritable. subst.
  repeat constructor; run; rewrite Hfind; step; reflexivity.
Qed.
End delete.

(** C1, on the first variant.  A delete of an existing student does remove
    the student from the store, and then answers 500: the response is
    built from [deletedItem], which is declared nowhere, so the handler
    throws and its [catch] sends the error body, which has no [data]. *)
Theorem delete_first_variant_responds_500 req w l i s :
  stored w = Some l →
  first_match (params_id req) l i s →
  writable (db w) = true →
  reply First.delete_student req w
    = Some (Response 500
              (object [("success", Some (Bool false));
                       ("message", Some (Str "Error deleting resource"));
                       ("error", Some (Str "deletedItem is not defined"))]))
  ∧ object [("success", Some (Bool false));
            ("message", Some (Str "Error deleting resource"));
            ("error", Some (Str "deletedItem is not defined"))] !! "data" = None
  ∧ stored (serve First.delete_student req w) = Some (take i l ++ drop (S i) l).
Proof.
  intros Hl Hm Hw.
  pose proof (delete_found req w l i s Hl Hm Hw) as Hdel.
  apply Forall_cons in Hdel as [[_ Hdisk] _].
  split; [|split; [by object_lookup|exact Hdisk]].
  pose proof (findIndex_first_match _ _ _ _ Hm) as Hfind.
  open_world w Hl. simpl in Hw. subst.
  run. rewrite Hfind. step. reflexivity.
Qed.

Lemma delete_first_variant_responds_500_witness :
  reply First.delete_student (Request "a1" ∅) registry
    = Some (Response 500
              (object [("success", Some (Bool false));
                       ("message", Some (Str "Error deleting resource"));
                       ("error", Some (Str "deletedItem is not defined"))]))
  ∧ object [("success", Some (Bool false));
            ("message", Some (Str "Error deleting resource"));
            ("error", Some (Str "deletedItem is not defined"))] !! "data" = None
  ∧ stored (serve First.delete_student (Request "a1" ∅) registry)
    = Some (take 0 [ada; bob] ++ drop 1 [ada; bob]).
Proof.
  apply (delete_first_variant_responds_500 (Request "a1" ∅) registry
           [ada; bob] 0 ada).
  - reflexivity.
  - exact ada_first.
  - reflexivity.
Defined.

(** C8. A delete of an existing student removes exactly the first match:
    the collection was [before ++ s :: after] with no match in [before],
    and is [before ++ after] afterwards, one shorter and in the old order,
    in memory and on disk. *)
Theorem delete_removes_first_match req w l i s :
  stored w = Some l →
  first_match (params_id req) l i s →
  writable (db w) = true →
  ∃ before after : list student,
    l = before ++ s :: after
    ∧ length before = i
    ∧ no_match (params_id req) before
    ∧ S (length (before ++ after)) = length l
    ∧ before ++ after `sublist_of` l
    ∧ Forall (λ delete_student,
        held (serve delete_student req w) = Some (before ++ after)
        ∧ stored (serve delete_student req w) = Some (before ++ after))
        [First.delete_student; Second.delete_student].
Proof.
  intros Hl Hm Hw.
  pose proof (delete_found req w l i s Hl Hm Hw) as Hdel.
  pose proof (first_match_lt _ _ _ _ Hm) as Hlt.
  destruct Hm as (Hi & _ & Hbefore).
  exists (take i l), (drop (S i) l).
  assert (l = take i l ++ s :: drop (S i) l) as Hsplit
    by (symmetry; by apply take_drop_middle).
  split; [exact Hsplit|]. split; [rewrite length_take; lia|].
  split; [exact Hbefore|]. split.
  - rewrite Hsplit at 3. rewrite !length_app. simpl. lia.
  - split; [|exact Hdel]. rewrite Hsplit at 3.
    apply sublist_app; [done|]. by apply sublist_cons.
Qed.

Lemma delete_removes_first_match_witness :
  ∃ before after : list student,
    [ada; bob] = before ++ bob :: after
    ∧ length before = 1%nat
    ∧ no_match (params_id (Request "7" ∅)) before
    ∧ S (length (before ++ after)) = length [ada; bob]
    ∧ before ++ after `sublist_of` [ada; bob]
    ∧ Forall (λ delete_student,
        held (serve delete_student (Request "7" ∅) registry)
          = Some (before ++ after)
        ∧ stored (serve delete_student (Request "7" ∅) registry)
          = Some (before ++ after))
        [First.delete_student; Second.delete_student].
Proof.
  apply (delete_removes_first_match (Request "7" ∅) registry [ada; bob] 1 bob).
  - reflexivity.
  - exact bob_first.
  - reflexivity.
Defined.

(** ** Update and delete of an absent student *)

(** C6. An update or a delete whose identifier matches no student answers
    404; the store is read once and not written, and the collection is
    the same afterwards, in memory and on disk. *)
Theorem update_delete_absent_404 req w l :
  stored w = Some l →
  no_match (params_id req) l →
  Forall (λ handler,
    reply handler req w
      = Some (Response 404 (object [("success", Some (Bool false));
                                    ("message", Some (Str "Student not found"))]))
    ∧ held (serve handler req w) = Some l
    ∧ stored (serve handler req w) = Some l
    ∧ disk (db (serve handler req w)) = disk (db w)
    ∧ io (db (serve handler req w)) = io (db w) ++ [IoRead])
    [First.put_student; Second.put_student;
     First.delete_student; Second.delete_student].
Proof.
  intros Hl Hnone.
  pose proof (findIndex_no_match _ _ Hnone) as Hfind.
  open_world w Hl.
  repeat constructor; run; rewrite Hfind; reflexivity.
Qed.

Lemma update_delete_absent_404_witness :
  Forall (λ handler,
    reply handler rekey_nobody registry
      = Some (Response 404 (object [("success", Some (Bool false));
                                    ("message", Some (Str "Student not found"))]))
    ∧ held (serve handler rekey_nobody registry) = Some [ada; bob]
    ∧ stored (serve handler rekey_nobody registry) = Some [ada; bob]
    ∧ disk (db (serve handler rekey_nobody registry)) = disk (db registry)
    ∧ io (db (serve handler rekey_nobody registry)) = io (db registry) ++ [IoRead])
    [First.put_student; Second.put_student;
     First.delete_student; Second.delete_student].
Proof.
  apply (update_delete_absent_404 rekey_nobody registry [ada; bob]).
  - reflexivity.
  - exact nobody_matches.
Defined.

(** ** Get by id *)

Lemma Number_toString_safe n : safe_integer n → Number_toString n = pretty n.
Proof.
  unfold safe_integer, Number_toString. intros Hn.
  destruct n as [|p|p]; cbv beta zeta.
  - reflexivity.
  - change (Z.pos p <? 0)%Z with false. cbv iota.
    assert ((Z.pos p <? 2 ^ 53)%Z = true) as -> by (apply Z.ltb_lt; lia).
    reflexivity.
  - change (Z.neg p <? 0)%Z with true. change (- Z.neg p)%Z with (Z.pos p).
    cbv iota.
    assert ((Z.pos p <? 2 ^ 53)%Z = true) as -> by (apply Z.ltb_lt; lia).
    reflexivity.
Qed.

Lemma other_plain_id_differs id s : other_plain_id id s → id_differs id s.
Proof.
  intros [(x & Hx & Hne) | (n & Hn & Hsafe & Hne)].
  - exists x. by rewrite Hx.
  - exists (pretty n). rewrite Hn. simpl. by rewrite Number_toString_safe.
Qed.

Lemma other_plain_ids_no_match id l :
  Forall (other_plain_id id) l → no_match id l.
Proof.
  intros Hplain. eapply Forall_impl; [exact Hplain|].
  apply other_plain_id_differs.
Qed.

(** C5. A get by id reloads the store (one read, nothing else) and changes
    neither the disk nor the reloaded collection, whatever it answers.  It
    answers 200 with the first student whose id has the requested string
    form: a stored string equal to the requested id, or a stored number
    whose decimal numeral is the requested id.  It answers 404 when no
    student matches. *)
Theorem get_by_id_first_match req w l :
  stored w = Some l →
  Forall (λ get_student,
    io (db (serve get_student req w)) = io (db w) ++ [IoRead]
    ∧ held (serve get_student req w) = Some l
    ∧ disk (db (serve get_student req w)) = disk (db w)
    ∧ (∀ i s, first_match (params_id req) l i s →
         reply get_student req w
           = Some (Response 200 (object [("success", Some (Bool true));
                                         ("data", Some (Obj s))])))
    ∧ (∀ i s, l !! i = Some s → s !! "id" = Some (Str (params_id req)) →
         Forall (other_plain_id (params_id req)) (take i l) →
         reply get_student req w
           = Some (Response 200 (object [("success", Some (Bool true));
                                         ("data", Some (Obj s))])))
    ∧ (∀ i s n, l !! i = Some s → s !! "id" = Some (Num n) →
         safe_integer n → params_id req = pretty n →
         Forall (other_plain_id (params_id req)) (take i l) →
         reply get_student req w
           = Some (Response 200 (object [("success", Some (Bool true));
                                         ("data", Some (Obj s))])))
    ∧ (no_match (params_id req) l →
         reply get_student req w
           = Some (Response 404 (object [("success", Some (Bool false));
                                         ("message", Some (Str "Student not found"))])))
    ∧ (Forall (other_plain_id (params_id req)) l →
         reply get_student req w
           = Some (Response 404 (object [("success", Some (Bool false));
                                         ("message", Some (Str "Student not found"))]))))
    [First.get_student; Second.get_student].
Proof.
  intros Hl.
  assert (∀ i s, l !! i = Some s → s !! "id" = Some (Str (params_id req)) →
            Forall (other_plain_id (params_id req)) (take i l) →
            first_match (params_id req) l i s) as Hstr.
  { intros i s Hi Hid Hbefore%other_plain_ids_no_match.
    repeat split; [done| |done]. unfold id_is. by rewrite Hid. }
  assert (∀ i s n, l !! i = Some s → s !! "id" = Some (Num n) →
            safe_integer n → params_id req = pretty n →
            Forall (other_plain_id (params_id req)) (take i l) →
            first_match (params_id req) l i s) as Hnum.
  { intros i s n Hi Hid Hsafe Hreq Hbefore%other_plain_ids_no_match.
    repeat split; [done| |done]. unfold id_is. rewrite Hid, Hreq. simpl.
    by rewrite Number_toString_safe. }
  open_world w Hl.
  repeat constructor; run;
    destruct (find (same_id (params_id req)) l) as [e|[found|]] eqn:Hfind;
    step; try reflexivity.
  all: try (intros i s Hm; apply find_first_match in Hm;
            rewrite Hm in Hfind; by simplify_eq).
  all: try (intros i s Hi Hid Hbefore;
            pose proof (Hstr i s Hi Hid Hbefore) as Hm;
            apply find_first_match in Hm;
            rewrite Hm in Hfind; by simplify_eq).
  all: try (intros i s n Hi Hid Hsafe Hreq Hbefore;
            pose proof (Hnum i s n Hi Hid Hsafe Hreq Hbefore) as Hm;
            apply find_first_match in Hm;
            rewrite Hm in Hfind; by simplify_eq).
  all: try (intros Hnone; apply find_no_match in Hnone;
            rewrite Hnone in Hfind; by simplify_eq).
  all: try (intros Hnone%other_plain_ids_no_match; apply find_no_match in Hnone;
            rewrite Hnone in Hfind; by simplify_eq).
Qed.

Lemma get_by_id_first_match_witness :
  Forall (λ get_student,
    io (db (serve get_student (Request "7" ∅) registry))
      = io (db registry) ++ [IoRead]
    ∧ held (serve get_student (Request "7" ∅) registry) = Some [ada; bob]
    ∧ disk (db (serve get_student (Request "7" ∅) registry)) = disk (db registry)
    ∧ reply get_student (Request "7" ∅) registry
        = Some (Response 200 (object [("success", Some (Bool true));
                                      ("data", Some (Obj bob))])))
    [First.get_student; Second.get_student].
Proof.
  eapply Forall_impl.
  - apply (get_by_id_first_match (Request "7" ∅) registry [ada; bob]).
    reflexivity.
  - intros get_student (Hio & Hheld & Hdisk & _ & _ & Hnumeric & _).
    repeat split; [exact Hio|exact Hheld|exact Hdisk|].
    apply (Hnumeric 1%nat bob 7%Z); [reflexivity..|].
    constructor; [|constructor].
    left. exists "a1". split; [reflexivity|discriminate].
Defined.

(** Beyond the safe integers the numeral is not the string form: the
    student whose id is the number [1e21] is found under ["1e+21"], and
    not under the 22 digits of that number. *)
Example get_by_large_numeric_id :
  Forall (λ get_student,
    status <$> reply get_student (Request "1000000000000000000000" ∅) outsized
      = Some 404%Z
    ∧ reply get_student (Request "1e+21" ∅) outsized
      = Some (Response 200 (object [("success", Some (Bool true));
                                    ("data", Some (Obj gia))])))
    [First.get_student; Second.get_student].
Proof. repeat constructor; vm_compute; reflexivity. Qed.

(** In the first variant the found student is sent, and then the handler
    throws on [item]; its [catch] cannot send a second response, so the
    exception leaves the handler. *)
Lemma get_first_variant_rejects req w l i s :
  stored w = Some l →
  first_match (params_id req) l i s →
  rejection First.get_student req w
    = Some (Error "Cannot set headers after they are sent to the client")
  ∧ rejection Second.get_student req w = None.
Proof.
  intros Hl Hm. apply find_first_match in Hm.
  open_world w Hl. split; run; rewrite Hm; reflexivity.
Qed.

(** ** Create *)

Lemma missing_falsy v : missing v → truthy v = false.
Proof. by intros [-> | ->]. Qed.

(** C3. A create whose payload lacks [name] or [email] (absent, or the
    empty string) answers 400 and leaves the datastore exactly as it was:
    no read, no write, same document in memory and on disk. *)
Theorem create_missing_field_400 req w :
  missing (req_body req !! "name") ∨ missing (req_body req !! "email") →
  Forall (λ post_student,
    reply post_student req w
      = Some (Response 400
                (object [("success", Some (Bool false));
                         ("message", Some (Str "Name and email are required"))]))
    ∧ db (serve post_student req w) = db w
    ∧ io (db (serve post_student req w)) = io (db w)
    ∧ rejection post_student req w = None)
    [First.post_student; Second.post_student].
Proof.
  intros Hmissing.
  assert (negb (truthy (req_body req !! "name"))
          || negb (truthy (req_body req !! "email")) = true) as Hcheck.
  { destruct Hmissing as [H%missing_falsy | H%missing_falsy]; rewrite H;
      [done | apply orb_true_r]. }
  destruct w as [b r cons u c].
  repeat constructor; run; rewrite Hcheck; reflexivity.
Qed.

Lemma create_missing_field_400_witness :
  Forall (λ post_student,
    reply post_student enrol_nameless registry
      = Some (Response 400
                (object [("success", Some (Bool false));
                         ("message", Some (Str "Name and email are required"))]))
    ∧ db (serve post_student enrol_nameless registry) = db registry
    ∧ io (db (serve post_student enrol_nameless registry)) = io (db registry)
    ∧ rejection post_student enrol_nameless registry = None)
    [First.post_student; Second.post_student].
Proof.
  apply (create_missing_field_400 enrol_nameless registry).
  left. right. reflexivity.
Defined.

(** The entity that [post_student] builds has four keys. *)
Lemma new_student_fields (id createdAt : string) (name email : value) :
  object [("id", Some (Str id)); ("name", Some name); ("email", Some email);
          ("createdAt", Some (Str createdAt))]
  = {[ "id" := Str id; "name" := name; "email" := email;
       "createdAt" := Str createdAt ]}.
Proof.
  unfold object. cbn [foldl fst snd].
  apply map_eq. intros k.
  destruct (decide (k = "id")) as [->|]; [by simplify_map_eq|].
  destruct (decide (k = "name")) as [->|]; [by simplify_map_eq|].
  destruct (decide (k = "email")) as [->|]; [by simplify_map_eq|].
  destruct (decide (k = "createdAt")) as [->|]; [by simplify_map_eq|].
  by simplify_map_eq.
Qed.

(** C4, as the code has it.  A create with a truthy [name] and [email],
    on a collection that is in memory and a store that takes the write,
    builds an entity of exactly four fields: the generated [id], the
    payload's [name] and [email], and [createdAt] from the clock.  It
    appends that entity to the end of the in-memory collection, changing
    no other entry, writes the collection to disk, and answers 201 with
    the entity. *)
Theorem create_appends_entity req w l name email :
  req_body req !! "name" = Some name →
  truthy (Some name) = true →
  req_body req !! "email" = Some email →
  truthy (Some email) = true →
  held w = Some l →
  writable (db w) = true →
  let entity : student :=
    {[ "id" := Str (uuid w); "name" := name; "email" := email;
       "createdAt" := Str (clock w) ]} in
  Forall (λ post_student,
    reply post_student req w
      = Some (Response 201 (object [("success", Some (Bool true));
                                    ("data", Some (Obj entity))]))
    ∧ held (serve post_student req w) = Some (l ++ [entity])
    ∧ stored (serve post_student req w) = Some (l ++ [entity]))
    [First.post_student; Second.post_student].
Proof.
  intros Hname Hn Hemail He Hl Hw entity. subst entity.
  rewrite <- new_student_fields.
  destruct w as [[dk wr [sts] lg] r cons u c].
  unfold held in Hl. simpl in Hl, Hw. subst.
  repeat constructor; run; rewrite Hname, Hemail, Hn, He; reflexivity.
Qed.

Lemma create_appends_entity_witness :
  let entity : student :=
    {[ "id" := Str (uuid registry); "name" := Str "Cy";
       "email" := Str "cy@x.com"; "createdAt" := Str (clock registry) ]} in
  Forall (λ post_student,
    reply post_student enrol_cy registry
      = Some (Response 201 (object [("success", Some (Bool true));
                                    ("data", Some (Obj entity))]))
    ∧ held (serve post_student enrol_cy registry) = Some ([ada; bob] ++ [entity])
    ∧ stored (serve post_student enrol_cy registry) = Some ([ada; bob] ++ [entity]))
    [First.post_student; Second.post_student].
Proof.
  apply (create_appends_entity enrol_cy registry [ada; bob]
           (Str "Cy") (Str "cy@x.com")); reflexivity.
Defined.

(** C4, as stated, fails: a payload field other than [name] and [email]
    is not merged into the created entity.  Cy's payload carries [age];
    the create succeeds with 201, and the student appended at index 2 has
    Cy's name and no [age], in both variants. *)
Lemma create_drops_extra_fields :
  truthy (req_body enrol_cy !! "name") = true
  ∧ truthy (req_body enrol_cy !! "email") = true
  ∧ req_body enrol_cy !! "age" = Some (Num 30)
  ∧ Forall (λ post_student,
      status <$> reply post_student enrol_cy registry = Some 201%Z
      ∧ field_of (stored (serve post_student enrol_cy registry)) 2 "name"
        = Some (Str "Cy")
      ∧ field_of (stored (serve post_student enrol_cy registry)) 2 "age"
        = None
      ∧ (reply post_student enrol_cy registry
           ≫= λ r, match body r !! "data" with
                   | Some (Obj created) => Some (created !! "age")
                   | _ => None
                   end) = Some None)
      [First.post_student; Second.post_student].
Proof.
  repeat split; try reflexivity.
  repeat constructor; vm_compute; reflexivity.
Qed.

(** ** A document without a [students] key *)

(** C10. When the loaded document has no [students] key, the list
    operation answers 200 with count 0 and an empty array; get by id,
    update and delete call a method on [undefined], and so answer 500,
    not 404. *)
Theorem undefined_collection req w :
  disk (db w) = Some (Document None) →
  Forall (λ get_students,
    reply get_students req w
      = Some (Response 200 (object [("success", Some (Bool true));
                                    ("count", Some (Num 0));
                                    ("data", Some (Arr []))])))
    [First.get_students; Second.get_students]
  ∧ Forall (λ handler,
      ∃ r, reply handler req w = Some r
           ∧ status r = 500%Z
           ∧ status r ≠ 404%Z
           ∧ body r !! "success" = Some (Bool false))
      [First.get_student; Second.get_student;
       First.put_student; Second.put_student;
       First.delete_student; Second.delete_student].
Proof.
  intros Hdisk.
  destruct w as [[dk wr dt lg] r cons u c]. simpl in Hdisk. subst.
  split; repeat constructor; run; try reflexivity.
  all: eexists; split; [reflexivity|]; repeat split; try done.
  all: by object_lookup.
Qed.

Lemma undefined_collection_witness :
  Forall (λ get_students,
    reply get_students (Request "a1" ∅) keyless
      = Some (Response 200 (object [("success", Some (Bool true));
                                    ("count", Some (Num 0));
                                    ("data", Some (Arr []))])))
    [First.get_students; Second.get_students]
  ∧ Forall (λ handler,
      ∃ r, reply handler (Request "a1" ∅) keyless = Some r
           ∧ status r = 500%Z
           ∧ status r ≠ 404%Z
           ∧ body r !! "success" = Some (Bool false))
      [First.get_student; Second.get_student;
       First.put_student; Second.put_student;
       First.delete_student; Second.delete_student].
Proof.
  apply (undefined_collection (Request "a1" ∅) keyless). reflexivity.
Defined.

(** ** A student's life in the second variant *)

(** Create, read, rename, delete, read again: 201, 200, 200 with the new
    name and the old email, 200 with the final record, 404. *)
Example lifecycle :
  let x := uuid vacant in
  let w1 := serve Second.post_student enrol_ada vacant in
  let w2 := serve Second.get_student (Request x ∅) w1 in
  let rename := Request x {[ "name" := Str "Ada Lovelace" ]} in
  let w3 := serve Second.put_student rename w2 in
  let w4 := serve Second.delete_student (Request x ∅) w3 in
  status <$> reply Second.post_student enrol_ada vacant = Some 201%Z
  ∧ status <$> reply Second.get_student (Request x ∅) w1 = Some 200%Z
  ∧ status <$> reply Second.put_student rename w2 = Some 200%Z
  ∧ field_of (stored w3) 0 "name" = Some (Str "Ada Lovelace")
  ∧ field_of (stored w3) 0 "email" = Some (Str "ada@x.com")
  ∧ status <$> reply Second.delete_student (Request x ∅) w3 = Some 200%Z
  ∧ (reply Second.delete_student (Request x ∅) w3 ≫= λ r, body r !! "data")
    = (Obj <$> (stored w3 ≫= λ l, l !! 0%nat))
  ∧ stored w4 = Some []
  ∧ status <$> reply Second.get_student (Request x ∅) w4 = Some 404%Z.
Proof. vm_compute. repeat split. Qed.

(** ** Listing *)

(** The list operation answers 200 with the collection it has just
    reloaded from disk, in stored order, and a count that is the length of
    that array; it reads once, writes nothing and does not reject. *)
Theorem list_returns_stored_collection req w l :
  stored w = Some l →
  Forall (λ get_students,
    reply get_students req w
      = Some (Response 200
                (object [("success", Some (Bool true));
                         ("count", Some (Num (Z.of_nat (length l))));
                         ("data", Some (Arr (Obj <$> l)))]))
    ∧ held (serve get_students req w) = Some l
    ∧ disk (db (serve get_students req w)) = disk (db w)
    ∧ io (db (serve get_students req w)) = io (db w) ++ [IoRead]
    ∧ rejection get_students req w = None)
    [First.get_students; Second.get_students].
Proof.
  intros Hl. open_world w Hl.
  repeat constructor; run; reflexivity.
Qed.

Lemma list_returns_stored_collection_witness :
  Forall (λ get_students,
    reply get_students (Request "" ∅) stale
      = Some (Response 200
                (object [("success", Some (Bool true));
                         ("count", Some (Num (Z.of_nat (length [ada; bob]))));
                         ("data", Some (Arr (Obj <$> [ada; bob])))]))
    ∧ held (serve get_students (Request "" ∅) stale) = Some [ada; bob]
    ∧ disk (db (serve get_students (Request "" ∅) stale)) = disk (db stale)
    ∧ io (db (serve get_students (Request "" ∅) stale)) = io (db stale) ++ [IoRead]
    ∧ rejection get_students (Request "" ∅) stale = None)
    [First.get_students; Second.get_students].
Proof.
  apply (list_returns_stored_collection (Request "" ∅) stale [ada; bob]).
  reflexivity.
Defined.

(** The two reading operations never write: whatever the store holds and
    whatever they answer, the disk is as before and the only storage
    operation attempted is one read. *)
Theorem reads_never_write req w :
  Forall (λ handler,
    disk (db (serve handler req w)) = disk (db w)
    ∧ writable (db (serve handler req w)) = writable (db w)
    ∧ io (db (serve handler req w)) = io (db w) ++ [IoRead])
    [First.get_students; Second.get_students;
     First.get_student; Second.get_student].
Proof.
  destruct w as [[[[[l|]]|] wr dt lg] r cons u c];
    repeat constructor; run; try reflexivity.
  all: destruct (find (same_id (params_id req)) l) as [e|[found|]];
    reflexivity.
Qed.

(** ** Storage failures *)

(** When the document cannot be loaded, every operation that starts by
    reading answers 500 with [success: false], logs the error once, and
    leaves the in-memory document and the disk alone; nothing is written
    and nothing escapes the handler. *)
Theorem unreadable_store_500 req w :
  disk (db w) = None →
  Forall (λ handler,
    (∃ r, reply handler req w = Some r
          ∧ status r = 500%Z
          ∧ body r !! "success" = Some (Bool false)
          ∧ body r !! "data" = None)
    ∧ data (db (serve handler req w)) = data (db w)
    ∧ disk (db (serve handler req w)) = None
    ∧ io (db (serve handler req w)) = io (db w) ++ [IoRead]
    ∧ length (console (serve handler req w)) = S (length (console w))
    ∧ rejection handler req w = None)
    [First.get_students; Second.get_students;
     First.get_student; Second.get_student;
     First.put_student; Second.put_student;
     First.delete_student; Second.delete_student].
Proof.
  intros Hdisk.
  destruct w as [[dk wr dt lg] r cons u c]. simpl in Hdisk. subst.
  repeat constructor; run; try reflexivity.
  all: try (rewrite length_app; simpl; lia).
  all: eexists; split; [reflexivity|]; repeat split; by object_lookup.
Qed.

Lemma unreadable_store_500_witness :
  Forall (λ handler,
    (∃ r, reply handler rename_bob (unreadable registry) = Some r
          ∧ status r = 500%Z
          ∧ body r !! "success" = Some (Bool false)
          ∧ body r !! "data" = None)
    ∧ data (db (serve handler rename_bob (unreadable registry)))
      = data (db (unreadable registry))
    ∧ disk (db (serve handler rename_bob (unreadable registry))) = None
    ∧ io (db (serve handler rename_bob (unreadable registry)))
      = io (db (unreadable registry)) ++ [IoRead]
    ∧ length (console (serve handler rename_bob (unreadable registry)))
      = S (length (console (unreadable registry)))
    ∧ rejection handler rename_bob (unreadable registry) = None)
    [First.get_students; Second.get_students;
     First.get_student; Second.get_student;
     First.put_student; Second.put_student;
     First.delete_student; Second.delete_student].
Proof.
  apply (unreadable_store_500 rename_bob (unreadable registry)). reflexivity.
Defined.

(** An update or a delete of an existing student on a storage that refuses
    the write answers 500 and leaves the disk as it was; the in-memory
    collection has been changed all the same, since the handler changes it
    before it writes. *)
Theorem failed_write_leaves_memory_changed req w l i s :
  stored w = Some l →
  first_match (params_id req) l i s →
  writable (db w) = false →
  Forall (λ put_student,
    status <$> reply put_student req w = Some 500%Z
    ∧ stored (serve put_student req w) = Some l
    ∧ held (serve put_student req w)
      = Some (<[i := <["updatedAt" := Str (clock w)]>
                        (spread (Some s) (req_body req))]> l)
    ∧ io (db (serve put_student req w)) = io (db w) ++ [IoRead; IoWrite]
    ∧ rejection put_student req w = None)
    [First.put_student; Second.put_student]
  ∧ Forall (λ delete_student,
      status <$> reply delete_student req w = Some 500%Z
      ∧ stored (serve delete_student req w) = Some l
      ∧ held (serve delete_student req w) = Some (take i l ++ drop (S i) l)
      ∧ io (db (serve delete_student req w)) = io (db w) ++ [IoRead; IoWrite]
      ∧ rejection delete_student req w = None)
      [First.delete_student; Second.delete_student].
Proof.
  intros Hl Hm Hw.
  pose proof (findIndex_first_match _ _ _ _ Hm) as Hfind.
  destruct Hm as (Hi & _).
  open_world w Hl. simpl in Hw. subst.
  split; repeat constructor; run; rewrite Hfind; step;
    rewrite ?Hi; step; rewrite <- ?app_assoc; reflexivity.
Qed.

Lemma failed_write_leaves_memory_changed_witness :
  Forall (λ put_student,
    status <$> reply put_student rename_bob (write_protected registry)
      = Some 500%Z
    ∧ stored (serve put_student rename_bob (write_protected registry))
      = Some [ada; bob]
    ∧ held (serve put_student rename_bob (write_protected registry))
      = Some (<[1%nat := <["updatedAt" := Str (clock (write_protected registry))]>
                           (spread (Some bob) (req_body rename_bob))]> [ada; bob])
    ∧ io (db (serve put_student rename_bob (write_protected registry)))
      = io (db (write_protected registry)) ++ [IoRead; IoWrite]
    ∧ rejection put_student rename_bob (write_protected registry) = None)
    [First.put_student; Second.put_student]
  ∧ Forall (λ delete_student,
      status <$> reply delete_student rename_bob (write_protected registry)
        = Some 500%Z
      ∧ stored (serve delete_student rename_bob (write_protected registry))
        = Some [ada; bob]
      ∧ held (serve delete_student rename_bob (write_protected registry))
        = Some (take 1 [ada; bob] ++ drop 2 [ada; bob])
      ∧ io (db (serve delete_student rename_bob (write_protected registry)))
        = io (db (write_protected registry)) ++ [IoRead; IoWrite]
      ∧ rejection delete_student rename_bob (write_protected registry) = None)
      [First.delete_student; Second.delete_student].
Proof.
  apply (failed_write_leaves_memory_changed rename_bob
           (write_protected registry) [ada; bob] 1 bob).
  - reflexivity.
  - exact bob_first.
  - reflexivity.
Defined.

(** ** Create, beyond the successful append *)

(** The validation is on truthiness, and it is all there is to it: for
    every payload and every store, a create answers, and the answer is 400
    exactly when [name] or [email] is falsy ([undefined], [null], [false],
    [0] or the empty string). *)
Theorem create_400_iff_falsy req w :
  Forall (λ post_student,
    ∃ r, reply post_student req w = Some r
         ∧ (status r = 400%Z
            ↔ truthy (req_body req !! "name") = false
              ∨ truthy (req_body req !! "email") = false))
    [First.post_student; Second.post_student].
Proof.
  destruct w as [[dk wr [sts] lg] r cons u c].
  repeat constructor; run;
    destruct (truthy (req_body req !! "name")),
             (truthy (req_body req !! "email")); step;
    try (eexists; split; [reflexivity|]; simpl;
         (split; [intros _; first [by left | by right] | done])).
  all: destruct sts as [l|]; step; [destruct wr; step|];
    eexists; (split; [reflexivity|]); simpl;
    (split; [discriminate | intros [|]; discriminate]).
Qed.

(** A create that passes validation while the in-memory document has no
    [students] array answers 500 and touches nothing: the push throws
    before anything is written, so the database is as before. *)
Theorem create_without_collection_500 req w :
  truthy (req_body req !! "name") = true →
  truthy (req_body req !! "email") = true →
  held w = None →
  Forall (λ post_student,
    status <$> reply post_student req w = Some 500%Z
    ∧ db (serve post_student req w) = db w
    ∧ rejection post_student req w = None)
    [First.post_student; Second.post_student].
Proof.
  intros Hn He Hheld.
  destruct w as [[dk wr [sts] lg] r cons u c].
  unfold held in Hheld. simpl in Hheld. subst.
  repeat constructor; run; rewrite Hn, He; reflexivity.
Qed.

Lemma create_without_collection_500_witness :
  Forall (λ post_student,
    status <$> reply post_student enrol_cy keyless = Some 500%Z
    ∧ db (serve post_student enrol_cy keyless) = db keyless
    ∧ rejection post_student enrol_cy keyless = None)
    [First.post_student; Second.post_student].
Proof.
  apply (create_without_collection_500 enrol_cy keyless); reflexivity.
Defined.

(** A successful create does not reload: it performs one write and no
    read, and what it writes is the in-memory collection with the new
    entity at its end, whatever the disk held. *)
Theorem create_writes_memory_over_disk req w l :
  truthy (req_body req !! "name") = true →
  truthy (req_body req !! "email") = true →
  held w = Some l →
  writable (db w) = true →
  Forall (λ post_student,
    io (db (serve post_student req w)) = io (db w) ++ [IoWrite]
    ∧ stored (serve post_student req w) = held (serve post_student req w)
    ∧ ∃ entity, stored (serve post_student req w) = Some (l ++ [entity])
                ∧ entity !! "id" = Some (Str (uuid w)))
    [First.post_student; Second.post_student].
Proof.
  intros Hn He Hheld Hw.
  destruct w as [[dk wr [sts] lg] r cons u c].
  unfold held in Hheld. simpl in Hheld, Hw. subst.
  repeat constructor; run; rewrite Hn, He; step; try reflexivity.
  all: eexists; split; [reflexivity|].
  all: destruct (req_body req !! "name") as [n|]; [|done].
  all: destruct (req_body req !! "email") as [e|]; [|done].
  all: by rewrite new_student_fields, lookup_insert_eq.
Qed.

Lemma create_writes_memory_over_disk_witness :
  Forall (λ post_student,
    io (db (serve post_student enrol_cy stale)) = io (db stale) ++ [IoWrite]
    ∧ stored (serve post_student enrol_cy stale)
      = held (serve post_student enrol_cy stale)
    ∧ ∃ entity, stored (serve post_student enrol_cy stale) = Some ([ada] ++ [entity])
                ∧ entity !! "id" = Some (Str (uuid stale)))
    [First.post_student; Second.post_student].
Proof.
  apply (create_writes_memory_over_disk enrol_cy stale [ada]); reflexivity.
Defined.

(** ** Matches in a changed collection *)

Section changed.
Context (id : string) (l : list student) (i : nat) (s : student).
Context (Hfirst : first_match id l i s).

Lemma first_match_insert x :
  id_is id x → first_match id (<[i := x]> l) i x.
Proof.
  intros Hx. pose proof (first_match_lt _ _ _ _ Hfirst) as Hlt.
  destruct Hfirst as (_ & _ & Hbefore).
  repeat split; [by apply list_lookup_insert_eq|done|].
  by rewrite take_insert_ge.
Qed.

Lemma no_match_insert x :
  id_differs id x → no_match id (drop (S i) l) → no_match id (<[i := x]> l).
Proof.
  intros Hx Hafter. pose proof (first_match_lt _ _ _ _ Hfirst) as Hlt.
  destruct Hfirst as (_ & _ & Hbefore).
  unfold no_match. rewrite insert_take_drop by done.
  apply Forall_app. split; [done|]. by constructor.
Qed.

Lemma no_match_removed :
  no_match id (drop (S i) l) → no_match id (take i l ++ drop (S i) l).
Proof.
  intros Hafter. destruct Hfirst as (_ & _ & Hbefore).
  apply Forall_app. by split.
Qed.
End changed.

Lemma first_match_snoc id l x :
  no_match id l → id_is id x → first_match id (l ++ [x]) (length l) x.
Proof.
  intros Hnone Hx. repeat split; [|done|].
  - by apply list_lookup_middle.
  - by rewrite take_app_length.
Qed.

(** ** One request after another *)

(** The handlers unfolded, and the world transformers with them. *)
Ltac run_on_changed :=
  unfold write_protected, write_enabled, unreadable; run.

(** An update that failed on the write is not undone.  When storage takes
    writes again and a create follows, the create writes the in-memory
    collection, so the disk then holds the update that was answered 500,
    next to the new student. *)
Theorem failed_update_persisted_by_create req w l i s enrol :
  stored w = Some l →
  first_match (params_id req) l i s →
  writable (db w) = false →
  truthy (req_body enrol !! "name") = true →
  truthy (req_body enrol !! "email") = true →
  Forall (λ put_student,
    Forall (λ post_student,
      let after_put := serve put_student req w in
      let after_post := serve post_student enrol (write_enabled after_put) in
      status <$> reply put_student req w = Some 500%Z
      ∧ status <$> reply post_student enrol (write_enabled after_put)
        = Some 201%Z
      ∧ stored after_put = Some l
      ∧ (stored after_post ≫= λ l', l' !! i)
        = Some (<["updatedAt" := Str (clock w)]>
                  (spread (Some s) (req_body req))))
      [First.post_student; Second.post_student])
    [First.put_student; Second.put_student].
Proof.
  intros Hl Hm Hw Hn He.
  pose proof (findIndex_first_match _ _ _ _ Hm) as Hfind.
  pose proof (first_match_lt _ _ _ _ Hm) as Hlt.
  destruct Hm as (Hi & _).
  open_world w Hl. simpl in Hw. subst.
  repeat constructor; run_on_changed; rewrite Hfind; step; rewrite ?Hi; step;
    rewrite ?Hn, ?He; cbn [negb orb]; step; try reflexivity.
  all: rewrite lookup_app_l by (by rewrite length_insert).
  all: by apply list_lookup_insert_eq.
Qed.

Lemma failed_update_persisted_by_create_witness :
  Forall (λ put_student,
    Forall (λ post_student,
      let after_put := serve put_student rename_bob (write_protected registry) in
      let after_post := serve post_student enrol_cy (write_enabled after_put) in
      status <$> reply put_student rename_bob (write_protected registry)
        = Some 500%Z
      ∧ status <$> reply post_student enrol_cy (write_enabled after_put)
        = Some 201%Z
      ∧ stored after_put = Some [ada; bob]
      ∧ (stored after_post ≫= λ l', l' !! 1%nat)
        = Some (<["updatedAt" := Str (clock (write_protected registry))]>
                  (spread (Some bob) (req_body rename_bob))))
      [First.post_student; Second.post_student])
    [First.put_student; Second.put_student].
Proof.
  apply (failed_update_persisted_by_create rename_bob
           (write_protected registry) [ada; bob] 1 bob enrol_cy).
  - reflexivity.
  - exact bob_first.
  - reflexivity.
  - reflexivity.
  - reflexivity.
Defined.

(** An update whose payload has no [id] key, then a get by the same id:
    the get answers 200 with the merged entity that the update stored. *)
Theorem update_then_get req again w l i s :
  stored w = Some l →
  first_match (params_id req) l i s →
  writable (db w) = true →
  req_body req !! "id" = None →
  params_id again = params_id req →
  Forall (λ put_student,
    Forall (λ get_student,
      reply get_student again (serve put_student req w)
        = Some (Response 200
                  (object [("success", Some (Bool true));
                           ("data", Some (Obj (<["updatedAt" := Str (clock w)]>
                                                 (spread (Some s) (req_body req)))))])))
      [First.get_student; Second.get_student])
    [First.put_student; Second.put_student].
Proof.
  intros Hl Hm Hw Hnoid Hagain.
  pose proof (findIndex_first_match _ _ _ _ Hm) as Hfind.
  assert (id_is (params_id req)
            (<["updatedAt" := Str (clock w)]> (spread (Some s) (req_body req))))
    as Hid.
  { unfold id_is. rewrite merge_lookup by done. rewrite Hnoid.
    by destruct Hm as (_ & ? & _). }
  pose proof (find_first_match _ _ _ _ (first_match_insert _ _ _ _ Hm _ Hid))
    as Hfound.
  destruct Hm as (Hi & _).
  open_world w Hl. simpl in Hw, Hfound. subst.
  repeat constructor; run; rewrite Hfind; step; rewrite Hi; step;
    rewrite Hagain, Hfound; reflexivity.
Qed.

Lemma update_then_get_witness :
  Forall (λ put_student,
    Forall (λ get_student,
      reply get_student (Request "7" ∅) (serve put_student rename_bob registry)
        = Some (Response 200
                  (object [("success", Some (Bool true));
                           ("data", Some (Obj (<["updatedAt" := Str (clock registry)]>
                                                 (spread (Some bob) (req_body rename_bob)))))])))
      [First.get_student; Second.get_student])
    [First.put_student; Second.put_student].
Proof.
  apply (update_then_get rename_bob (Request "7" ∅) registry [ada; bob] 1 bob).
  - reflexivity.
  - exact bob_first.
  - reflexivity.
  - reflexivity.
  - reflexivity.
Defined.

(** An update whose payload carries an [id] with another string form moves
    the student to that id: when no later student has the old id, a get by
    the old id answers 404 afterwards. *)
Theorem update_with_id_then_get_old_404 req again w l i s v new :
  stored w = Some l →
  first_match (params_id req) l i s →
  writable (db w) = true →
  req_body req !! "id" = Some v →
  js_String (Some v) = inr new →
  new ≠ params_id req →
  no_match (params_id req) (drop (S i) l) →
  params_id again = params_id req →
  Forall (λ put_student,
    Forall (λ get_student,
      reply get_student again (serve put_student req w)
        = Some (Response 404
                  (object [("success", Some (Bool false));
                           ("message", Some (Str "Student not found"))])))
      [First.get_student; Second.get_student])
    [First.put_student; Second.put_student].
Proof.
  intros Hl Hm Hw Hv Hnew Hne Hafter Hagain.
  pose proof (findIndex_first_match _ _ _ _ Hm) as Hfind.
  assert (id_differs (params_id req)
            (<["updatedAt" := Str (clock w)]> (spread (Some s) (req_body req))))
    as Hid.
  { exists new. rewrite merge_lookup by done. by rewrite Hv. }
  pose proof (find_no_match _ _ (no_match_insert _ _ _ _ Hm _ Hid Hafter))
    as Hgone.
  destruct Hm as (Hi & _).
  open_world w Hl. simpl in Hw, Hgone. subst.
  repeat constructor; run; rewrite Hfind; step; rewrite Hi; step;
    rewrite Hagain, Hgone; reflexivity.
Qed.

Lemma update_with_id_then_get_old_404_witness :
  Forall (λ put_student,
    Forall (λ get_student,
      reply get_student (Request "a1" ∅) (serve put_student rekey_ada registry)
        = Some (Response 404
                  (object [("success", Some (Bool false));
                           ("message", Some (Str "Student not found"))])))
      [First.get_student; Second.get_student])
    [First.put_student; Second.put_student].
Proof.
  apply (update_with_id_then_get_old_404 rekey_ada (Request "a1" ∅) registry
           [ada; bob] 0 ada (Str "zz") "zz").
  - reflexivity.
  - exact ada_first.
  - reflexivity.
  - reflexivity.
  - reflexivity.
  - discriminate.
  - repeat constructor. exists "7". split; [reflexivity|discriminate].
  - reflexivity.
Defined.

(** A delete of an existing student, when no later student has the same
    id: a get by that id answers 404 afterwards, and the list has one
    student fewer, the others in their old order. *)
Theorem delete_then_get_404 req again w l i s :
  stored w = Some l →
  first_match (params_id req) l i s →
  writable (db w) = true →
  no_match (params_id req) (drop (S i) l) →
  params_id again = params_id req →
  Forall (λ delete_student,
    Forall (λ get_student,
      reply get_student again (serve delete_student req w)
        = Some (Response 404
                  (object [("success", Some (Bool false));
                           ("message", Some (Str "Student not found"))])))
      [First.get_student; Second.get_student]
    ∧ Forall (λ get_students,
        reply get_students again (serve delete_student req w)
          = Some (Response 200
                    (object [("success", Some (Bool true));
                             ("count", Some (Num (Z.of_nat (length l) - 1)));
                             ("data", Some (Arr (Obj <$> take i l ++ drop (S i) l)))])))
        [First.get_students; Second.get_students])
    [First.delete_student; Second.delete_student].
Proof.
  intros Hl Hm Hw Hafter Hagain.
  pose proof (findIndex_first_match _ _ _ _ Hm) as Hfind.
  pose proof (find_no_match _ _ (no_match_removed _ _ _ _ Hm Hafter)) as Hgone.
  pose proof (first_match_lt _ _ _ _ Hm) as Hlt.
  assert (Z.of_nat (length (take i l ++ drop (S i) l))
          = (Z.of_nat (length l) - 1)%Z) as Hcount.
  { rewrite length_app, length_take, length_drop. lia. }
  open_world w Hl. simpl in Hw. subst.
  repeat constructor; run; rewrite Hfind; step;
    rewrite ?Hagain, ?Hgone, ?Hcount; reflexivity.
Qed.

Lemma delete_then_get_404_witness :
  Forall (λ delete_student,
    Forall (λ get_student,
      reply get_student (Request "a1" ∅)
        (serve delete_student (Request "a1" ∅) registry)
        = Some (Response 404
                  (object [("success", Some (Bool false));
                           ("message", Some (Str "Student not found"))])))
      [First.get_student; Second.get_student]
    ∧ Forall (λ get_students,
        reply get_students (Request "a1" ∅)
          (serve delete_student (Request "a1" ∅) registry)
          = Some (Response 200
                    (object [("success", Some (Bool true));
                             ("count", Some (Num (Z.of_nat (length [ada; bob]) - 1)));
                             ("data", Some (Arr (Obj <$> take 0 [ada; bob]
                                                        ++ drop 1 [ada; bob])))])))
        [First.get_students; Second.get_students])
    [First.delete_student; Second.delete_student].
Proof.
  apply (delete_then_get_404 (Request "a1" ∅) (Request "a1" ∅) registry
           [ada; bob] 0 ada).
  - reflexivity.
  - exact ada_first.
  - reflexivity.
  - repeat constructor. exists "7". split; [reflexivity|discriminate].
  - reflexivity.
Defined.

(** A successful create, when the generated id is the id of no student in
    memory: a get by that id answers 200 with the very body the create
    answered 201 with, and the list counts one student more. *)
Theorem create_then_get req again w l :
  truthy (req_body req !! "name") = true →
  truthy (req_body req !! "email") = true →
  held w = Some l →
  writable (db w) = true →
  no_match (uuid w) l →
  params_id again = uuid w →
  Forall (λ post_student,
    status <$> reply post_student req w = Some 201%Z
    ∧ Forall (λ get_student,
        status <$> reply get_student again (serve post_student req w)
          = Some 200%Z
        ∧ body <$> reply get_student again (serve post_student req w)
          = body <$> reply post_student req w)
        [First.get_student; Second.get_student]
    ∧ Forall (λ get_students,
        (reply get_students again (serve post_student req w)
           ≫= λ r, body r !! "count")
          = Some (Num (Z.of_nat (length l) + 1)))
        [First.get_students; Second.get_students])
    [First.post_student; Second.post_student].
Proof.
  intros Hn He Hheld Hw Hfresh Hagain.
  destruct (req_body req !! "name") as [n|] eqn:Hname; [|done].
  destruct (req_body req !! "email") as [e|] eqn:Hemail; [|done].
  assert (id_is (uuid w)
            (object [("id", Some (Str (uuid w))); ("name", Some n);
                     ("email", Some e); ("createdAt", Some (Str (clock w)))]))
    as Hid.
  { unfold id_is. by rewrite new_student_fields, lookup_insert_eq. }
  pose proof (find_first_match _ _ _ _ (first_match_snoc _ _ _ Hfresh Hid))
    as Hfound.
  assert (∀ x : student, Z.of_nat (length (l ++ [x]))
                         = (Z.of_nat (length l) + 1)%Z) as Hcount.
  { intros x. rewrite length_app. simpl. lia. }
  destruct w as [[dk wr [sts] lg] r cons u c].
  unfold held in Hheld. simpl in Hheld, Hw, Hfound, Hagain. subst.
  repeat constructor; run; rewrite ?Hname, ?Hemail, Hn, He; cbn [negb orb]; step;
    rewrite ?Hagain, ?Hfound; step; try reflexivity.
  all: unfold object at 1; cbn [foldl fst snd].
  all: rewrite lookup_insert_ne by discriminate.
  all: by rewrite lookup_insert_eq, Hcount.
Qed.

Lemma create_then_get_witness :
  Forall (λ post_student,
    status <$> reply post_student enrol_cy registry = Some 201%Z
    ∧ Forall (λ get_student,
        status <$> reply get_student (Request (uuid registry) ∅)
                     (serve post_student enrol_cy registry)
          = Some 200%Z
        ∧ body <$> reply get_student (Request (uuid registry) ∅)
                     (serve post_student enrol_cy registry)
          = body <$> reply post_student enrol_cy registry)
        [First.get_student; Second.get_student]
    ∧ Forall (λ get_students,
        (reply get_students (Request (uuid registry) ∅)
           (serve post_student enrol_cy registry)
           ≫= λ r, body r !! "count")
          = Some (Num (Z.of_nat (length [ada; bob]) + 1)))
        [First.get_students; Second.get_students])
    [First.post_student; Second.post_student].
Proof.
  apply (create_then_get enrol_cy (Request (uuid registry) ∅) registry
           [ada; bob]).
  - reflexivity.
  - reflexivity.
  - reflexivity.
  - reflexivity.
  - repeat constructor; [exists "a1" | exists "7"];
      (split; [reflexivity|discriminate]).
  - reflexivity.
Defined.

(** ** Ids stay distinct *)

Lemma id_strings_snoc l x :
  id_strings (l ++ [x]) = id_strings l ++ [js_String (x !! "id")].
Proof. unfold id_strings. by rewrite fmap_app. Qed.

Lemma id_strings_removed l i :
  id_strings (take i l ++ drop (S i) l) `sublist_of` id_strings l.
Proof.
  rewrite <- delete_take_drop. unfold id_strings.
  apply fmap_sublist, sublist_delete.
Qed.

Lemma id_strings_insert l i s x :
  l !! i = Some s → x !! "id" = s !! "id" →
  id_strings (<[i := x]> l) = id_strings l.
Proof.
  intros Hi Hx. unfold id_strings. rewrite list_fmap_insert, Hx.
  apply list_insert_id. by rewrite list_lookup_fmap, Hi.
Qed.

(** On a collection whose ids have pairwise distinct string forms, each
    successful mutation stores a collection with the same property: a
    create whose generated id is not yet in use, an update whose payload
    has no [id] key (the ids are then the same list as before), and any
    delete. *)
Theorem distinct_ids_kept w l :
  stored w = Some l →
  held w = Some l →
  writable (db w) = true →
  NoDup (id_strings l) →
  (∀ req,
     truthy (req_body req !! "name") = true →
     truthy (req_body req !! "email") = true →
     inr (uuid w) ∉ id_strings l →
     Forall (λ post_student,
       ∃ l', stored (serve post_student req w) = Some l'
             ∧ NoDup (id_strings l'))
       [First.post_student; Second.post_student])
  ∧ (∀ req i s,
       first_match (params_id req) l i s →
       req_body req !! "id" = None →
       Forall (λ put_student,
         ∃ l', stored (serve put_student req w) = Some l'
               ∧ id_strings l' = id_strings l
               ∧ NoDup (id_strings l'))
         [First.put_student; Second.put_student])
  ∧ (∀ req i s,
       first_match (params_id req) l i s →
       Forall (λ delete_student,
         ∃ l', stored (serve delete_student req w) = Some l'
               ∧ NoDup (id_strings l'))
         [First.delete_student; Second.delete_student]).
Proof.
  intros Hl Hheld Hw Hdistinct. split; [|split].
  - intros req Hn He Hfresh.
    destruct (req_body req !! "name") as [n|] eqn:Hname; [|done].
    destruct (req_body req !! "email") as [e|] eqn:Hemail; [|done].
    assert (NoDup (id_strings
              (l ++ [object [("id", Some (Str (uuid w))); ("name", Some n);
                             ("email", Some e);
                             ("createdAt", Some (Str (clock w)))]])))
      as Hnew.
    { rewrite id_strings_snoc, new_student_fields, lookup_insert_eq.
      apply NoDup_app. split; [done|]. split; [|apply NoDup_singleton].
      intros x Hx ->%list_elem_of_singleton. done. }
    destruct w as [[dk wr [sts] lg] r cons u c].
    unfold held in Hheld. simpl in Hheld, Hw, Hnew. subst.
    repeat constructor; run; rewrite Hname, Hemail, Hn, He; cbn [negb orb];
      step; eexists; (split; [reflexivity|exact Hnew]).
  - intros req i s Hm Hnoid.
    pose proof (put_found req w l i s Hl Hm Hw) as Hput.
    eapply Forall_impl; [exact Hput|].
    intros put_student (_ & _ & Hput'). eexists. split; [exact Hput'|].
    destruct Hm as (Hi & _).
    rewrite (id_strings_insert l i s); [done|done|].
    rewrite merge_lookup by done. by rewrite Hnoid.
  - intros req i s Hm.
    pose proof (delete_found req w l i s Hl Hm Hw) as Hdel.
    eapply Forall_impl; [exact Hdel|].
    intros delete_student (_ & Hdel'). eexists. split; [exact Hdel'|].
    eapply sublist_NoDup; [done|apply id_strings_removed].
Qed.

Lemma registry_ids_distinct : NoDup (id_strings [ada; bob]).
Proof.
  apply NoDup_cons. split; [|apply NoDup_singleton].
  intros H%list_elem_of_singleton. discriminate H.
Qed.

Lemma distinct_ids_kept_witness :
  (∀ req,
     truthy (req_body req !! "name") = true →
     truthy (req_body req !! "email") = true →
     inr (uuid registry) ∉ id_strings [ada; bob] →
     Forall (λ post_student,
       ∃ l', stored (serve post_student req registry) = Some l'
             ∧ NoDup (id_strings l'))
       [First.post_student; Second.post_student])
  ∧ (∀ req i s,
       first_match (params_id req) [ada; bob] i s →
       req_body req !! "id" = None →
       Forall (λ put_student,
         ∃ l', stored (serve put_student req registry) = Some l'
               ∧ id_strings l' = id_strings [ada; bob]
               ∧ NoDup (id_strings l'))
         [First.put_student; Second.put_student])
  ∧ (∀ req i s,
       first_match (params_id req) [ada; bob] i s →
       Forall (λ delete_student,
         ∃ l', stored (serve delete_student req registry) = Some l'
               ∧ NoDup (id_strings l'))
         [First.delete_student; Second.delete_student]).
Proof.
  apply (distinct_ids_kept registry [ada; bob]).
  - reflexivity.
  - reflexivity.
  - reflexivity.
  - exact registry_ids_distinct.
Defined.

(** ** Every request is answered *)

(** Whatever the payload and whatever state the store is in (unreadable,
    write-protected, without a collection, holding ids with no string
    form), each handler of the second variant, and each of the first but
    its get by id, sends exactly one response with one of the five status
    codes, lets no exception escape, and logs to the console only when it
    answers 500. *)
Theorem handlers_always_answer req w :
  Forall (λ handler,
    ∃ r, reply handler req w = Some r
         ∧ rejection handler req w = None
         ∧ (status r = 200 ∨ status r = 201 ∨ status r = 400
            ∨ status r = 404 ∨ status r = 500)%Z
         ∧ (status r ≠ 500%Z → console (serve handler req w) = console w))
    [First.get_students; First.post_student; First.put_student;
     First.delete_student;
     Second.get_students; Second.get_student; Second.post_student;
     Second.put_student; Second.delete_student].
Proof.
  destruct w as [[[[dsts]|] wr [sts] lg] r cons u c].
  all: repeat constructor; run.
  all: repeat match goal with
         | |- context [find ?p ?l] =>
             destruct (find p l) as [?|[?|]]; step
         | |- context [findIndex ?p ?l] =>
             destruct (findIndex p l) as [?|[?|]]; step
         | |- context [truthy ?v] =>
             destruct (truthy v); cbn [negb orb]; step
         | |- context [if ?b then _ else _] =>
             is_var b; destruct b; step
         | |- context [match ?o with Some _ => _ | None => _ end] =>
             is_var o; destruct o; step
         end.
  all: eexists; split; [reflexivity|]; split; [reflexivity|]; simpl.
  all: split; [auto 6|]; intros Hstatus; first [reflexivity | done].
Qed.

(** The first variant's get by id is the exception: once it has sent the
    student it finds, it throws on [item]; the [catch] cannot send a second
    response on the same [res], so that error leaves the handler, after
    the [ReferenceError] has been logged.  The second variant returns. *)
Theorem get_first_variant_rejects_after_sending req w l i s :
  stored w = Some l →
  first_match (params_id req) l i s →
  reply First.get_student req w
    = Some (Response 200 (object [("success", Some (Bool true));
                                  ("data", Some (Obj s))]))
  ∧ rejection First.get_student req w
    = Some (Error "Cannot set headers after they are sent to the client")
  ∧ console (serve First.get_student req w)
    = console w ++ [("Error in GET /api/students/:id:",
                     ReferenceError "item is not defined")]
  ∧ rejection Second.get_student req w = None
  ∧ console (serve Second.get_student req w) = console w.
Proof.
  intros Hl Hm. apply find_first_match in Hm.
  open_world w Hl. repeat split; run; rewrite Hm; reflexivity.
Qed.

Lemma get_first_variant_rejects_after_sending_witness :
  reply First.get_student (Request "7" ∅) registry
    = Some (Response 200 (object [("success", Some (Bool true));
                                  ("data", Some (Obj bob))]))
  ∧ rejection First.get_student (Request "7" ∅) registry
    = Some (Error "Cannot set headers after they are sent to the client")
  ∧ console (serve First.get_student (Request "7" ∅) registry)
    = console registry ++ [("Error in GET /api/students/:id:",
                            ReferenceError "item is not defined")]
  ∧ rejection Second.get_student (Request "7" ∅) registry = None
  ∧ console (serve Second.get_student (Request "7" ∅) registry)
    = console registry.
Proof.
  apply (get_first_variant_rejects_after_sending (Request "7" ∅) registry
           [ada; bob] 1 bob).
  - reflexivity.
  - exact bob_first.
Defined.

(** ** A student without an id *)

(** [String(undefined)] is ["undefined"], so a student stored without an
    [id] key is the student of the identifier ["undefined"]: a get by that
    identifier answers 200 with the first such student, and a delete
    removes it. *)
Theorem missing_id_is_undefined req w l i s :
  stored w = Some l →
  l !! i = Some s →
  s !! "id" = None →
  no_match "undefined" (take i l) →
  params_id req = "undefined" →
  writable (db w) = true →
  Forall (λ get_student,
    reply get_student req w
      = Some (Response 200 (object [("success", Some (Bool true));
                                    ("data", Some (Obj s))])))
    [First.get_student; Second.get_student]
  ∧ Forall (λ delete_student,
      stored (serve delete_student req w) = Some (take i l ++ drop (S i) l))
      [First.delete_student; Second.delete_student]
  ∧ reply Second.delete_student req w
    = Some (Response 200 (object [("success", Some (Bool true));
                                  ("data", Some (Obj s))])).
Proof.
  intros Hl Hi Hid Hbefore Hreq Hw.
  assert (first_match (params_id req) l i s) as Hm.
  { rewrite Hreq. repeat split; [done| |done]. unfold id_is. by rewrite Hid. }
  pose proof (find_first_match _ _ _ _ Hm) as Hfound.
  pose proof (findIndex_first_match _ _ _ _ Hm) as Hfind.
  open_world w Hl. simpl in Hw. subst.
  repeat split; repeat constructor; run; rewrite ?Hfound, ?Hfind; step;
    rewrite ?splice_removed, ?Hi; reflexivity.
Qed.

Lemma missing_id_is_undefined_witness :
  Forall (λ get_student,
    reply get_student (Request "undefined" ∅) anonymous
      = Some (Response 200 (object [("success", Some (Bool true));
                                    ("data", Some (Obj nemo))])))
    [First.get_student; Second.get_student]
  ∧ Forall (λ delete_student,
      stored (serve delete_student (Request "undefined" ∅) anonymous)
        = Some (take 1 [ada; nemo; bob] ++ drop 2 [ada; nemo; bob]))
      [First.delete_student; Second.delete_student]
  ∧ reply Second.delete_student (Request "undefined" ∅) anonymous
    = Some (Response 200 (object [("success", Some (Bool true));
                                  ("data", Some (Obj nemo))])).
Proof.
  apply (missing_id_is_undefined (Request "undefined" ∅) anonymous
           [ada; nemo; bob] 1 nemo).
  - reflexivity.
  - reflexivity.
  - reflexivity.
  - repeat constructor. exists "a1". split; [reflexivity|discriminate].
  - reflexivity.
  - reflexivity.
Defined.

(** ** The welcome route and the fallback *)

(** Neither the welcome route nor the fallback goes near the datastore:
    for every store, readable or not, they answer (200, and 404 with the
    requested URL handed back) and leave the database and the console as
    they were. *)
Theorem static_routes_leave_store_alone url req w :
  Forall (λ get_root,
    (∃ r, reply get_root req w = Some r
          ∧ status r = 200%Z
          ∧ body r !! "version" = Some (Str "1.0.0"))
    ∧ db (serve get_root req w) = db w
    ∧ console (serve get_root req w) = console w
    ∧ rejection get_root req w = None)
    [First.get_root; Second.get_root]
  ∧ Forall (λ not_found,
      reply (not_found url) req w
        = Some (Response 404
                  (object [("success", Some (Bool false));
                           ("message", Some (Str "Route not found"));
                           ("requestedUrl", Some (Str url))]))
      ∧ db (serve (not_found url) req w) = db w
      ∧ console (serve (not_found url) req w) = console w
      ∧ rejection (not_found url) req w = None)
      [First.not_found; Second.not_found].
Proof.
  destruct w as [b r cons u c].
  split; repeat constructor;
    unfold First.get_root, Second.get_root, First.not_found, Second.not_found;
    run; try reflexivity.
  all: eexists; split; [reflexivity|]; split; [reflexivity|]; by object_lookup.
Qed.

(** ** An id with no string form *)

Section unprintable.
Context (id : string) (l : list student) (j : nat) (t : student) (e : js_error).
Context (Hj : l !! j = Some t).
Context (Ht : js_String (t !! "id") = inl e).
Context (Hbefore : no_match id (take j l)).

Lemma find_throws : find (same_id id) l = inl e.
Proof.
  revert j Hj Hbefore. induction l as [|x l' IH]; intros [|k] Hk Hb;
    simpl in *; try done.
  - injection Hk as ->. unfold same_id. by rewrite Ht.
  - apply Forall_cons in Hb as [Hx Hb].
    rewrite (same_id_differs _ _ Hx). by apply (IH k).
Qed.

Lemma findIndex_throws : findIndex (same_id id) l = inl e.
Proof.
  revert j Hj Hbefore. induction l as [|x l' IH]; intros [|k] Hk Hb;
    simpl in *; try done.
  - injection Hk as ->. unfold same_id. by rewrite Ht.
  - apply Forall_cons in Hb as [Hx Hb].
    rewrite (same_id_differs _ _ Hx). by rewrite (IH k).
Qed.
End unprintable.

(** The search converts every id it passes to a string.  A stored id that
    has no string form (an object with a [toString] key of its own, which
    an update's payload can put there) makes that conversion throw: every
    get, update and delete whose search reaches that student answers 500
    and changes nothing, whatever id was asked for. *)
Theorem unprintable_id_blocks_lookup req w l j t e :
  stored w = Some l →
  l !! j = Some t →
  js_String (t !! "id") = inl e →
  no_match (params_id req) (take j l) →
  Forall (λ handler,
    (∃ r, reply handler req w = Some r
          ∧ status r = 500%Z
          ∧ body r !! "error" = Some (Str (error_message e)))
    ∧ held (serve handler req w) = Some l
    ∧ disk (db (serve handler req w)) = disk (db w)
    ∧ io (db (serve handler req w)) = io (db w) ++ [IoRead])
    [First.get_student; Second.get_student;
     First.put_student; Second.put_student;
     First.delete_student; Second.delete_student].
Proof.
  intros Hl Hj Ht Hbefore.
  pose proof (find_throws _ _ _ _ _ Hj Ht Hbefore) as Hfind.
  pose proof (findIndex_throws _ _ _ _ _ Hj Ht Hbefore) as Hindex.
  open_world w Hl.
  repeat constructor; run; rewrite ?Hfind, ?Hindex; try reflexivity.
  all: eexists; split; [reflexivity|]; split; [reflexivity|]; by object_lookup.
Qed.

Lemma unprintable_id_blocks_lookup_witness :
  Forall (λ handler,
    (∃ r, reply handler (Request "7" ∅) blocked = Some r
          ∧ status r = 500%Z
          ∧ body r !! "error"
            = Some (Str (error_message
                           (TypeError "Cannot convert object to primitive value"))))
    ∧ held (serve handler (Request "7" ∅) blocked) = Some [opaque; bob]
    ∧ disk (db (serve handler (Request "7" ∅) blocked)) = disk (db blocked)
    ∧ io (db (serve handler (Request "7" ∅) blocked))
      = io (db blocked) ++ [IoRead])
    [First.get_student; Second.get_student;
     First.put_student; Second.put_student;
     First.delete_student; Second.delete_student].
Proof.
  apply (unprintable_id_blocks_lookup (Request "7" ∅) blocked [opaque; bob]
           0 opaque (TypeError "Cannot convert object to primitive value")).
  - reflexivity.
  - reflexivity.
  - reflexivity.
  - constructor.
Defined.
